(** * BoostMe KPI dashboard: the normalisation and aggregation pipeline

    A shallow embedding of [Romain_fichier/boostme_streamlit/app.py]:
    the two formatters, [normalize_columns], [load_data], the slicer
    (filter) block, the four KPI cards and the lists that the slicers
    offer, followed by the properties of the pipeline.

    Conventions of the embedding.
    - A Python [str] is a [string] (its UTF-8 bytes).
    - A Python [float] is a binary64 [float]; a Python or numpy integer
      is a [Z].
    - A pandas frame is the ordered list of its labelled columns, every
      column a list of cells; labels may repeat, as pandas allows.
    - An exception is a value of [exn] on the left of a sum. *)

From Stdlib Require Import ZArith PrimFloat FloatOps SpecFloat DecimalString Ascii String.
From stdpp Require Import gmap strings list sorting.

Open Scope string_scope.
Open Scope Z_scope.

(** ** Python strings *)

Module Py.

(** [str.lower] on the ASCII letters.  Bytes of a multi-byte character are
    left alone: the names the program compares against ([rename_map]'s keys
    and the two file extensions) are ASCII and hold no letter that a
    non-ASCII character lower-cases to, so the comparisons made by the
    program agree with this byte-wise version. *)
Definition lower_ascii (a : ascii) : ascii :=
  let n := N_of_ascii a in
  if ((65 <=? n) && (n <=? 90))%N then ascii_of_N (n + 32) else a.

Fixpoint lower (s : string) : string :=
  match s with
  | EmptyString => EmptyString
  | String a s' => String (lower_ascii a) (lower s')
  end.

(** [s.endswith(suffix)] *)
Definition endswith (s suffix : string) : bool :=
  let n := String.length s in
  let k := String.length suffix in
  (k <=? n)%nat && String.eqb (substring (n - k) k s) suffix.

(** [s.replace(a, b)] for one-character [a] and [b]. *)
Fixpoint replace (a b : ascii) (s : string) : string :=
  match s with
  | EmptyString => EmptyString
  | String c s' => String (if Ascii.eqb c a then b else c) (replace a b s')
  end.

(** ** Python numbers *)

(** What the formatters receive: [None], an integer or a float. *)
Inductive scalar : Type :=
  | SNone
  | SInt (n : Z)
  | SFloat (x : float).

(** [pd.isna] on a scalar. *)
Definition isna (n : scalar) : bool :=
  match n with
  | SNone => true
  | SInt _ => false
  | SFloat x => is_nan x
  end.

(** The binary64 nearest to an integer (ties to even). *)
Definition float_of_Z (n : Z) : float :=
  SF2Prim (binary_normalize prec emax n 0 false).

(** [float(n)]; [None] stands for the exception ([TypeError] on [None],
    [OverflowError] on an integer beyond the binary64 range). *)
Definition to_float (n : scalar) : option float :=
  match n with
  | SNone => None
  | SInt k =>
      let x := float_of_Z k in
      if is_infinity x then None else Some x
  | SFloat x => Some x
  end.

(** [n / d] rounded to the nearest integer, ties to even ([0 < d]). *)
Definition div_half_even (n d : Z) : Z :=
  let q := n / d in
  let r := n mod d in
  if 2 * r <? d then q
  else if d <? 2 * r then q + 1
  else if Z.even q then q else q + 1.

(** The magnitude [m * 2^e * 10^d] rounded to an integer, ties to even. *)
Definition scaled_magnitude (m : positive) (e : Z) (d : Z) : Z :=
  if 0 <=? e then Z.pos m * 2 ^ e * 10 ^ d
  else div_half_even (Z.pos m * 10 ^ d) (2 ^ (- e)).

(** [round(x)] on a float: the nearest integer, ties to even; [None] is
    the exception raised on an infinity or a NaN. *)
Definition round (x : float) : option Z :=
  match Prim2SF x with
  | S754_zero _ => Some 0
  | S754_finite s m e =>
      let k := scaled_magnitude m e 0 in
      Some (if s then - k else k)
  | S754_infinity _ => None
  | S754_nan => None
  end.

(** Decimal digits of a natural number. *)
Definition digits (n : Z) : string :=
  NilZero.string_of_uint (N.to_uint (Z.to_N n)).

(** The [","] option of a format specification: a comma before every
    group of three digits, counted from the right. *)
Fixpoint group3 (s : string) : string :=
  match s with
  | EmptyString => EmptyString
  | String c s' =>
      let rest := String.length s' in
      if ((0 <? rest) && (rest mod 3 =? 0))%nat
      then String c (String "," (group3 s'))
      else String c (group3 s')
  end.

(** [f"{n:,}"] on an integer. *)
Definition format_int_grouped (n : Z) : string :=
  (if n <? 0 then "-" else "") +:+ group3 (digits (Z.abs n)).

(** [k] as a field of [w] digits, zero-padded on the left. *)
Definition zero_pad (w : nat) (k : Z) : string :=
  let s := digits k in
  String.concat "" (repeat "0" (w - String.length s)) +:+ s.

(** The digits of [f"{x:,.{d}f}"] once the magnitude is scaled by [10^d]
    and rounded to the integer [q]. *)
Definition fixed_point (neg : bool) (q : Z) (d : Z) : string :=
  (if neg then "-" else "")
  +:+ group3 (digits (q / 10 ^ d))
  +:+ (if d =? 0 then "" else "." +:+ zero_pad (Z.to_nat d) (q mod 10 ^ d)).

(** [f"{{:,.{decimals}f}}".format(x)]: the exact value of [x] rounded to
    [decimals] places, ties to even.  [None] is the [ValueError] of a
    malformed specification (a negative precision). *)
Definition format_float_grouped (decimals : Z) (x : float) : option string :=
  if decimals <? 0 then None
  else
    Some match Prim2SF x with
         | S754_nan => "nan"
         | S754_infinity s => (if s then "-" else "") +:+ "inf"
         | S754_zero s => fixed_point s 0 decimals
         | S754_finite s m e => fixed_point s (scaled_magnitude m e decimals) decimals
         end.

End Py.

(** ** Formatter (app.py, lines 110-129) *)

Definition dash : string := "—".

Definition _fr_int (n : Py.scalar) : string :=
  if Py.isna n then dash
  else
    match Py.to_float n with
    | None => dash
    | Some x =>
        match Py.round x with
        | None => dash
        | Some n_int => Py.replace "," " " (Py.format_int_grouped n_int)
        end
    end.

Definition _fr_float (n : Py.scalar) (decimals : Z) : string :=
  if Py.isna n then dash
  else
    match Py.to_float n with
    | None => dash
    | Some x =>
        match Py.format_float_grouped decimals x with
        | None => dash
        | Some fmt =>
            Py.replace "X" " " (Py.replace "." "," (Py.replace "," "X" fmt))
        end
    end.

(** ** Frames *)

(** The value of one cell.  [Null] is pandas' missing value ([None], [NaN]
    or [NaT]); a [Float] cell holding a NaN is missing too.  A [Timestamp]
    is a naive [datetime64[ns]]: nanoseconds since 1970-01-01T00:00:00.
    Booleans and other Python objects are not represented. *)
Inductive cell : Type :=
  | Null
  | Int (n : Z)
  | Float (x : float)
  | Str (s : string)
  | Timestamp (ns : Z).

Abbreviation Series := (list cell).

(** A frame: its columns in order, each a label and a series. *)
Abbreviation DataFrame := (list (string * list cell)).

(** What the program can raise. *)
Inductive exn : Type :=
  | UnsupportedFormat            (* ValueError("Format non supporté (CSV/Parquet uniquement).") *)
  | ParserError                  (* raised inside pd.read_csv or pd.read_parquet *)
  | KeyError (label : string)    (* df[label] on an absent label *)
  | RepeatedLabel (label : string)
      (* df[label] on a label carried by several columns is a frame, not a
         Series; the Series code applied to it raises (ValueError,
         TypeError or AttributeError according to the call) *)
  | TypeError (label : string).  (* an aggregate over cells that are not numbers *)

Notation result A := (exn + A)%type.

Definition bind {A B : Type} (r : result A) (k : A -> result B) : result B :=
  match r with
  | inl e => inl e
  | inr a => k a
  end.

Notation "'let*' x ':=' r 'in' k" := (bind r (fun x => k))
  (at level 10, x pattern, r at level 100, k at level 200).

(** The value of a run that did not raise. *)
Definition value {A : Type} (r : result A) : option A :=
  match r with
  | inl _ => None
  | inr a => Some a
  end.

Module Pandas.

(** [df.columns] *)
Definition columns (df : DataFrame) : list string := map fst df.

(** [label in df.columns] *)
Definition has_column (df : DataFrame) (label : string) : bool :=
  bool_decide (label ∈ columns df).

(** [pd.DataFrame()] *)
Definition empty_frame : DataFrame := [].

(** [len(df)]: the length of the columns (they all have the same). *)
Definition nrows (df : DataFrame) : nat :=
  match df with
  | [] => 0%nat
  | col :: _ => length col.2
  end.

(** [df.empty]: no column or no row. *)
Definition empty (df : DataFrame) : bool :=
  match df with
  | [] => true
  | _ :: _ => Nat.eqb (nrows df) 0
  end.

(** [df[label]] where the program goes on with a Series. *)
Definition getitem (df : DataFrame) (label : string) : result Series :=
  match filter (fun col : string * Series => col.1 = label) df with
  | [] => inl (KeyError label)
  | [col] => inr col.2
  | _ :: _ :: _ => inl (RepeatedLabel label)
  end.

(** [df[label] = s]: replaces the column, or appends it when the label
    is new. *)
Definition setitem (df : DataFrame) (label : string) (s : Series) : DataFrame :=
  if has_column df label
  then map (fun col : string * Series =>
              if bool_decide (col.1 = label) then (label, s) else col) df
  else (df ++ [(label, s)])%list.

(** [df.rename(columns=mapper)]: every label found in [mapper] is replaced,
    in one pass; the data are untouched and no column is dropped. *)
Definition rename (mapper : gmap string string) (df : DataFrame) : DataFrame :=
  map (fun col : string * Series => (default col.1 (mapper !! col.1), col.2)) df.

(** [pd.isna] / [pd.notna] on a cell. *)
Definition isna (c : cell) : bool :=
  match c with
  | Null => true
  | Float x => is_nan x
  | _ => false
  end.

Definition notna (c : cell) : bool := negb (isna c).

(** Equality of two cells as [isin] sees it: missing values match each
    other, numbers compare by value, everything else by identity. *)
Definition cell_eqb (c v : cell) : bool :=
  if isna c then isna v
  else if isna v then false
  else
    match c, v with
    | Int a, Int b => a =? b
    | Int a, Float y => PrimFloat.eqb (Py.float_of_Z a) y
    | Float x, Int b => PrimFloat.eqb x (Py.float_of_Z b)
    | Float x, Float y => PrimFloat.eqb x y
    | Str a, Str b => String.eqb a b
    | Timestamp a, Timestamp b => a =? b
    | _, _ => false
    end.

(** [s.isin(values)] *)
Definition isin (s : Series) (values : list cell) : list bool :=
  map (fun c => existsb (cell_eqb c) values) s.

(** The entries of [l] at which the boolean mask holds. *)
Fixpoint select {A : Type} (mask : list bool) (l : list A) : list A :=
  match mask, l with
  | b :: mask', x :: l' => if b then x :: select mask' l' else select mask' l'
  | _, _ => []
  end.

(** [df[mask]] for a boolean Series [mask]: the rows at which it holds. *)
Definition loc (df : DataFrame) (mask : list bool) : DataFrame :=
  map (fun col : string * Series => (col.1, select mask col.2)) df.

(** *** Aggregates *)

(** [s.notna().sum()] *)
Definition count_notna (s : Series) : Z :=
  Z.of_nat (length (filter (fun c => notna c = true) s)).

(** A series whose dtype is [int64]: integers only, none missing. *)
Definition is_int_series (s : Series) : bool :=
  forallb (fun c => match c with Int _ => true | _ => false end) s.

(** Numbers and missing values only: dtype [int64] or [float64]. *)
Definition is_numeric_series (s : Series) : bool :=
  forallb (fun c => match c with Null | Int _ | Float _ => true | _ => false end) s.

(** The values an aggregate with [skipna] goes over, as floats. *)
Definition float_values (s : Series) : list float :=
  omap (fun c => match c with
                 | Int n => Some (Py.float_of_Z n)
                 | Float x => if is_nan x then None else Some x
                 | _ => None
                 end) s.

Definition int_values (s : Series) : list Z :=
  omap (fun c => match c with Int n => Some n | _ => None end) s.

(** Two's-complement wrap-around of [int64] arithmetic. *)
Definition wrap64 (n : Z) : Z :=
  (n + 2 ^ 63) mod 2 ^ 64 - 2 ^ 63.

(** Accumulation of a float sum from [0.0], left to right. *)
Definition fsum (l : list float) : float :=
  foldl PrimFloat.add 0%float l.

(** [s.sum()]: an integer on an [int64] series, a float otherwise; missing
    values are skipped and the sum of nothing is zero.  The float sum is
    accumulated in the order of the rows, which is numpy's order on fewer
    than eight values and gives numpy's result whenever the partial sums
    are exact.  A series holding anything but numbers is of dtype [object]
    and does not come out of [load_data], which coerces the columns that
    are summed or averaged; the embedding raises [TypeError] on it. *)
Definition sum (label : string) (s : Series) : result Py.scalar :=
  if is_int_series s then inr (Py.SInt (wrap64 (foldl Z.add 0 (int_values s))))
  else if is_numeric_series s then inr (Py.SFloat (fsum (float_values s)))
  else inl (TypeError label).

(** [s.mean()]: the float sum of the values that are not missing over
    their number; NaN when there is none. *)
Definition mean (label : string) (s : Series) : result Py.scalar :=
  if is_numeric_series s then
    let xs := float_values s in
    inr (Py.SFloat
           match xs with
           | [] => nan
           | _ :: _ => PrimFloat.div (fsum xs) (Py.float_of_Z (Z.of_nat (length xs)))
           end)
  else inl (TypeError label).

(** *** The [.dt] accessor *)

Definition ns_per_day : Z := 86400 * 1000000000.
Definition ns_per_hour : Z := 3600 * 1000000000.

(** Proleptic Gregorian year of the day [days] after 1970-01-01. *)
Definition year_of_days (days : Z) : Z :=
  let z := days + 719468 in
  let era := z / 146097 in
  let doe := z - era * 146097 in
  let yoe := (doe - doe / 1460 + doe / 36524 - doe / 146096) / 365 in
  let doy := doe - (365 * yoe + yoe / 4 - yoe / 100) in
  let mp := (5 * doy + 2) / 153 in
  let m := if mp <? 10 then mp + 3 else mp - 9 in
  yoe + era * 400 + (if m <=? 2 then 1 else 0).

(** [s.dt.year], [s.dt.weekday] (Monday is 0) and [s.dt.hour]; [NaT]
    gives a missing value. *)
Definition dt_field (f : Z -> Z) (s : Series) : Series :=
  map (fun c => match c with Timestamp ns => Int (f ns) | _ => Null end) s.

Definition dt_year : Series -> Series :=
  dt_field (fun ns => year_of_days (ns / ns_per_day)).

Definition dt_weekday : Series -> Series :=
  dt_field (fun ns => (ns / ns_per_day + 3) mod 7).

Definition dt_hour : Series -> Series :=
  dt_field (fun ns => (ns mod ns_per_day) / ns_per_hour).

(** [s.map(d)] for a dict [d] with integer keys: the value under the key,
    a missing value where there is none. *)
Definition map_dict (d : gmap Z string) (s : Series) : Series :=
  map (fun c => match c with
                | Int k => match d !! k with Some v => Str v | None => Null end
                | _ => Null
                end) s.

(** *** Distinct values *)

(** [s.dropna()] *)
Definition dropna (s : Series) : Series :=
  filter (fun c => notna c = true) s.

(** [s.unique()]: the distinct values, in the order of their first
    appearance. *)
Definition unique (s : Series) : list cell :=
  foldl (fun seen c => if existsb (cell_eqb c) seen then seen else (seen ++ [c])%list)
        [] s.

(** [df.get(label, pd.Series(dtype=...))]: the column, or a Series
    without rows when the label is absent. *)
Definition get (df : DataFrame) (label : string) : result Series :=
  if has_column df label then getitem df label else inr [].

End Pandas.

(** ** Schema Normalizer (app.py, lines 131-167) *)

(** The labels the program works with.  The specification names them
    [category_id], [views], [engagement_rate_pct], [engagement_total],
    [channel], [published_at], [year], [weekday_name], [hour] and
    [category_name]; in the program they are, in that order: *)
Definition REQUIRED_COLUMNS : list string :=
  [ "category_id"; "views"; "Taux d'engagement (%)"; "Engagement total";
    "channel"; "published_at" ].

Definition DERIVED_COLUMNS : list string :=
  [ "Année"; "Jour de la semaine"; "Heure" ].

Definition CATEGORY_NAME : string := "cats.name".

(** The dict literal of [normalize_columns], in its order. *)
Definition rename_map : list (string * string) :=
  [ ("taux_engagement", "Taux d'engagement (%)");
    ("taux d'engagement (%)", "Taux d'engagement (%)");
    ("engagement_total", "Engagement total");
    ("engagement total", "Engagement total");
    ("publishedAt", "published_at");
    ("published_at", "published_at");
    ("date_publication", "published_at");
    ("categorie_id", "category_id");
    ("categoryId", "category_id");
    ("vues", "views");
    ("views", "views");
    ("chaine", "channel");
    ("channel", "channel");
    ("jour de la semaine", "Jour de la semaine");
    ("Jour de la semaine", "Jour de la semaine");
    ("heure", "Heure");
    ("Heure", "Heure");
    ("category_name", "cats.name");
    ("categorie", "cats.name");
    ("cats.name", "cats.name") ].

(** [{c.lower(): c for c in df.columns}]: a later column takes the place
    of an earlier one with the same lower-cased name. *)
Definition lower_to_actual (columns : list string) : gmap string string :=
  foldl (fun d c => <[Py.lower c := c]> d) ∅ columns.

(** One turn of the loop [for k, v in rename_map.items()]: the key is
    looked up as it is written. *)
Definition final_rename_step (index : gmap string string)
    (final : gmap string string) (kv : string * string) : gmap string string :=
  match index !! kv.1 with
  | Some actual => <[actual := kv.2]> final
  | None => final
  end.

Definition final_rename (columns : list string) : gmap string string :=
  foldl (final_rename_step (lower_to_actual columns)) ∅ rename_map.

Definition normalize_columns (df : DataFrame) : DataFrame :=
  Pandas.rename (final_rename (Pandas.columns df)) df.

(** ** Loader (app.py, lines 169-207) *)

Definition fr_weekdays : gmap Z string :=
  list_to_map
    [ (0, "Lundi"); (1, "Mardi"); (2, "Mercredi"); (3, "Jeudi");
      (4, "Vendredi"); (5, "Samedi"); (6, "Dimanche") ].

Definition NUMERIC_COLUMNS : list string :=
  [ "views"; "Taux d'engagement (%)"; "Engagement total" ].

(** [uploaded_file]: a name and the bytes behind it. *)
Record UploadedFile (blob : Type) : Type :=
  { name : string; content : blob }.
Arguments name {blob} _.
Arguments content {blob} _.

Section Loader.

(** The library calls whose results the program only passes on. *)
Variable blob : Type.
(** [pd.read_csv] and [pd.read_parquet]; [None] when they raise. *)
Variables read_csv read_parquet : blob -> option DataFrame.
(** [pd.to_datetime(s, errors="coerce", utc=True).dt.tz_convert(None)]:
    for every entry the UTC instant read from it, in nanoseconds since
    the epoch, or [None] for [NaT]. *)
Variable to_datetime : Series -> list (option Z).
(** The number [pd.to_numeric] reads from a string, if any. *)
Variable number_of_string : string -> option (Z + float).

Definition timestamps (s : Series) : Series :=
  map (fun t => match t with Some ns => Timestamp ns | None => Null end)
      (to_datetime s).

(** [pd.to_numeric(s, errors="coerce")] *)
Definition to_numeric (s : Series) : Series :=
  map (fun c => match c with
                | Null => Null
                | Int n => Int n
                | Float x => Float x
                | Str t => match number_of_string t with
                           | Some (inl n) => Int n
                           | Some (inr x) => Float x
                           | None => Null
                           end
                | Timestamp ns => Int ns
                end) s.

(** [df[target] = f(df[source])] *)
Definition assign (df : DataFrame) (target source : string)
    (f : Series -> Series) : result DataFrame :=
  let* s := Pandas.getitem df source in
  inr (Pandas.setitem df target (f s)).

(** [if target not in df.columns: df[target] = f(df["published_at"])] *)
Definition derive (target : string) (f : Series -> Series)
    (df : DataFrame) : result DataFrame :=
  if Pandas.has_column df target then inr df
  else assign df target "published_at" f.

(** [if col in df.columns: df[col] = pd.to_numeric(df[col], errors="coerce")] *)
Definition coerce (df : DataFrame) (col : string) : result DataFrame :=
  if Pandas.has_column df col then assign df col col to_numeric
  else inr df.

(** Lines 182-207: what [load_data] does to the frame it has read. *)
Definition prepare (df : DataFrame) : result DataFrame :=
  let df := normalize_columns df in
  let* df :=
    if Pandas.has_column df "published_at"
    then assign df "published_at" "published_at" timestamps
    else inr df in
  let* df :=
    if Pandas.has_column df "published_at" then
      let* df := derive "Année" Pandas.dt_year df in
      let* df := derive "Jour de la semaine"
                   (fun s => Pandas.map_dict fr_weekdays (Pandas.dt_weekday s)) df in
      derive "Heure" Pandas.dt_hour df
    else inr df in
  foldl (fun r col => let* df := r in coerce df col) (inr df) NUMERIC_COLUMNS.

(** The two extensions [load_data] dispatches on. *)
Definition supported (file_name : string) : bool :=
  Py.endswith (Py.lower file_name) ".csv"
  || Py.endswith (Py.lower file_name) ".parquet".

Definition load_data (uploaded_file : option (UploadedFile blob)) : result DataFrame :=
  match uploaded_file with
  | None => inr Pandas.empty_frame
  | Some f =>
      let name := Py.lower (name f) in
      let* df :=
        if Py.endswith name ".csv" then
          match read_csv (content f) with
          | Some df => inr df
          | None => inl ParserError
          end
        else if Py.endswith name ".parquet" then
          match read_parquet (content f) with
          | Some df => inr df
          | None => inl ParserError
          end
        else inl UnsupportedFormat in
      prepare df
  end.

End Loader.

(** ** Filter Engine (app.py, lines 299-310) *)

(** The five multiselects. *)
Record Selections : Type :=
  { year_sel : list cell;
    cat_sel : list cell;
    ch_sel : list cell;
    day_sel : list cell;
    hour_sel : list cell }.

(** [if sel and label in fdf.columns: fdf = fdf[fdf[label].isin(sel)]].
    On a label carried by several columns [fdf[label]] is a frame and the
    line no longer selects rows; the embedding stops there with
    [RepeatedLabel].  (In the script the lists of lines 274-297 have raised
    before: they call [.unique()], which a frame does not have.) *)
Definition slicer (label : string) (sel : list cell) (fdf : DataFrame)
    : result DataFrame :=
  if negb (bool_decide (sel = [])) && Pandas.has_column fdf label then
    let* s := Pandas.getitem fdf label in
    inr (Pandas.loc fdf (Pandas.isin s sel))
  else inr fdf.

Definition filter_block (df : DataFrame) (sel : Selections) : result DataFrame :=
  let fdf := df in
  let* fdf := slicer "Année" (year_sel sel) fdf in
  let* fdf := slicer "cats.name" (cat_sel sel) fdf in
  let* fdf := slicer "channel" (ch_sel sel) fdf in
  let* fdf := slicer "Jour de la semaine" (day_sel sel) fdf in
  slicer "Heure" (hour_sel sel) fdf.

(** ** KPI Aggregator (app.py, lines 315-335) *)

(** The values of the four cards, before they are formatted. *)
Record Kpis : Type :=
  { videos : Py.scalar;
    mean_views : Py.scalar;
    mean_engagement : Py.scalar;
    interactions : Py.scalar }.

Definition kpi_values (fdf : DataFrame) : result Kpis :=
  let* c := Pandas.getitem fdf "category_id" in
  let k1 := Py.SInt (Pandas.count_notna c) in
  let* v := Pandas.getitem fdf "views" in
  let* k2 := Pandas.mean "views" v in
  let* t := Pandas.getitem fdf "Taux d'engagement (%)" in
  let* k3 := Pandas.mean "Taux d'engagement (%)" t in
  let* e := Pandas.getitem fdf "Engagement total" in
  let* k4 := Pandas.sum "Engagement total" e in
  inr {| videos := k1; mean_views := k2; mean_engagement := k3; interactions := k4 |}.

(** The text of the four cards.  The formatters raise nothing, so the
    cards can be written once the four values are known; in the script each
    card is written before the next value is looked up. *)
Definition kpi_cards (k : Kpis) : string * string * string * string :=
  (_fr_int (videos k),
   _fr_int (mean_views k),
   _fr_float (mean_engagement k) 2 +:+ " %",
   _fr_int (interactions k)).

Definition kpi_block (fdf : DataFrame) : result (string * string * string * string) :=
  let* k := kpi_values fdf in
  inr (kpi_cards k).

(** ** The page (app.py, lines 250-335) *)

(** What the page shows below its header. *)
Inductive page : Type :=
  | Awaiting                                   (* the st.info message, then st.stop() *)
  | Cards (k1 k2 k3 k4 : string).

(** From the loaded frame and the answers of the five multiselects to the
    cards: the test of [df.empty], the filter block and the KPI block.
    The widgets in between (lines 262-297) are presentation and are not
    part of it: they compute the lists of values offered to the user,
    whose answers are [sel] here.  The lists are embedded further down. *)
Definition pipeline (df : DataFrame) (sel : Selections) : result page :=
  if Pandas.empty df then inr Awaiting
  else
    let* fdf := filter_block df sel in
    let* k := kpi_block fdf in
    let '(k1, k2, k3, k4) := k in
    inr (Cards k1 k2 k3 k4).

(** ** The lists offered by the slicers (app.py, lines 274-292) *)

(** [sorted(values)] on cells, ascending.  Integers are ordered as
    integers; numbers of a column that holds a float as floats; strings by
    their characters; instants by time.  Values that Python cannot order
    among themselves raise a [TypeError]; a single value is compared with
    nothing.  The script sorts what is left after [dropna()], so a NaN,
    which no order places, does not reach the second case. *)
Definition sorted (label : string) (l : list cell) : result (list cell) :=
  if forallb (fun c => match c with Int _ => true | _ => false end) l then
    inr (Int <$> merge_sort Z.le (Pandas.int_values l))
  else if forallb (fun c => match c with Int _ | Float _ => true | _ => false end) l then
    inr (Float <$> merge_sort (fun x y : float => PrimFloat.leb x y)
                     (omap (fun c => match c with
                                     | Int n => Some (Py.float_of_Z n)
                                     | Float x => Some x
                                     | _ => None
                                     end) l))
  else if forallb (fun c => match c with Str _ => true | _ => false end) l then
    inr (Str <$> merge_sort (fun a b : string => String.leb a b)
                   (omap (fun c => match c with Str a => Some a | _ => None end) l))
  else if forallb (fun c => match c with Timestamp _ => true | _ => false end) l then
    inr (Timestamp <$> merge_sort Z.le
                         (omap (fun c => match c with Timestamp t => Some t | _ => None end) l))
  else
    match l with
    | [_] => inr l
    | _ => inl (TypeError label)
    end.

(** The names of the days, as the weekday slicer lists them (line 289). *)
Definition weekdays : list string :=
  [ "Lundi"; "Mardi"; "Mercredi"; "Jeudi"; "Vendredi"; "Samedi"; "Dimanche" ].

(** [sorted(df.get(label, ...).dropna().unique())] *)
Definition offered (label : string) (df : DataFrame) : result (list cell) :=
  let* s := Pandas.get df label in
  sorted label (Pandas.unique (Pandas.dropna s)).

Definition years (df : DataFrame) : result (list cell) := offered "Année" df.

(** [years[-1:] if years else years], the preset of the year slicer. *)
Definition year_default (years : list cell) : list cell :=
  match last years with
  | Some y => [y]
  | None => years
  end.

Definition cats (df : DataFrame) : result (list cell) := offered "cats.name" df.

Definition channels (df : DataFrame) : result (list cell) := offered "channel" df.

(** [[d for d in weekdays if d in set(...unique())]] *)
Definition avail_weekdays (df : DataFrame) : result (list string) :=
  let* s := Pandas.get df "Jour de la semaine" in
  let present := Pandas.unique (Pandas.dropna s) in
  inr (filter (fun d => existsb (fun v => Pandas.cell_eqb v (Str d)) present = true)
              weekdays).

(** What the five multiselects answer before the user touches them: the
    last of [years] for the year, nothing for the other four. *)
Definition default_selections (years : list cell) : Selections :=
  {| year_sel := year_default years;
     cat_sel := []; ch_sel := []; day_sel := []; hour_sel := [] |}.

(** ** The reference scenario *)

Module Iso8601.

(** The instants of the reference table are written
    [YYYY-MM-DDTHH:MM:SSZ].  On a series of such strings [pd.to_datetime]
    reads each as the UTC instant it spells; this is the part of it the
    scenario needs, and anything else is [NaT] here. *)

Definition digit (a : ascii) : option Z :=
  let n := Z.of_N (N_of_ascii a) in
  if (48 <=? n) && (n <=? 57) then Some (n - 48) else None.

Fixpoint number_from (acc : Z) (s : string) : option Z :=
  match s with
  | EmptyString => Some acc
  | String a s' =>
      match digit a with
      | Some d => number_from (10 * acc + d) s'
      | None => None
      end
  end.

Definition field (start len : nat) (s : string) : option Z :=
  number_from 0 (substring start len s).

Definition is_leap (y : Z) : bool :=
  ((y mod 4 =? 0) && negb (y mod 100 =? 0)) || (y mod 400 =? 0).

Definition days_in_month (y m : Z) : Z :=
  if m =? 2 then (if is_leap y then 29 else 28)
  else if (m =? 4) || (m =? 6) || (m =? 9) || (m =? 11) then 30
  else 31.

(** Days from 1970-01-01 to the civil date [y]-[m]-[d]. *)
Definition days_from_civil (y m d : Z) : Z :=
  let y' := if m <=? 2 then y - 1 else y in
  let era := y' / 400 in
  let yoe := y' - era * 400 in
  let doy := (153 * (if 2 <? m then m - 3 else m + 9) + 2) / 5 + d - 1 in
  let doe := yoe * 365 + yoe / 4 - yoe / 100 + doy in
  era * 146097 + doe - 719468.

Definition instant (c : cell) : option Z :=
  match c with
  | Timestamp ns => Some ns
  | Str s =>
      if Nat.eqb (String.length s) 20
         && String.eqb (substring 4 1 s) "-" && String.eqb (substring 7 1 s) "-"
         && String.eqb (substring 10 1 s) "T" && String.eqb (substring 13 1 s) ":"
         && String.eqb (substring 16 1 s) ":" && String.eqb (substring 19 1 s) "Z"
      then
        match field 0 4 s, field 5 2 s, field 8 2 s,
              field 11 2 s, field 14 2 s, field 17 2 s with
        | Some y, Some m, Some d, Some hh, Some mm, Some ss =>
            if (1 <=? m) && (m <=? 12) && (1 <=? d) && (d <=? days_in_month y m)
               && (hh <? 24) && (mm <? 60) && (ss <? 60)
            then Some (days_from_civil y m d * Pandas.ns_per_day
                       + ((hh * 60 + mm) * 60 + ss) * 1000000000)
            else None
        | _, _, _, _, _, _ => None
        end
      else None
  | _ => None
  end.

Definition to_datetime (s : Series) : list (option Z) := map instant s.

End Iso8601.

(** The three rows of the scenario, column by column. *)
Definition reference_table : DataFrame :=
  [ ("category_id", [Str "a"; Null; Str "c"]);
    ("views", [Int 100; Int 200; Null]);
    ("Taux d'engagement (%)", [Float 2; Float 4; Null]);
    ("Engagement total", [Int 5; Int 15; Int 0]);
    ("channel", [Str "X"; Str "Y"; Str "X"]);
    ("published_at",
     [Str "2024-01-01T10:00:00Z"; Str "2024-06-01T10:00:00Z"; Str "2023-01-01T10:00:00Z"]) ].

Definition no_selection : Selections :=
  {| year_sel := []; cat_sel := []; ch_sel := []; day_sel := []; hour_sel := [] |}.

Definition only_year (y : Z) : Selections :=
  {| year_sel := [Int y]; cat_sel := []; ch_sel := []; day_sel := []; hour_sel := [] |}.

(** The scenario from the frame as read to the four cards. *)
Definition scenario (number_of_string : string -> option (Z + float))
    (sel : Selections) : result page :=
  let* df := prepare Iso8601.to_datetime number_of_string reference_table in
  pipeline df sel.

(** ** Vocabulary of the properties *)

(** The four labels the KPI block indexes. *)
Definition KPI_COLUMNS : list string :=
  [ "category_id"; "views"; "Taux d'engagement (%)"; "Engagement total" ].

(** The canonical labels: those of the data model. *)
Definition CANONICAL_COLUMNS : list string :=
  (REQUIRED_COLUMNS ++ DERIVED_COLUMNS ++ [CATEGORY_NAME])%list.

(** [c] is a variant of the canonical label [v]: lower-cased, it is a
    key of [rename_map] with value [v]. *)
Definition variant_of (c v : string) : Prop :=
  (Py.lower c, v) ∈ rename_map.

(** No two labels differ by case only (nor are equal). *)
Definition case_distinct (columns : list string) : Prop :=
  NoDup (Py.lower <$> columns).

(** The number of columns of [df] that carry [label]. *)
Definition count_label (df : DataFrame) (label : string) : nat :=
  length (filter (fun c : string => c = label) (Pandas.columns df)).

(** The exceptions of a lookup [df[label]]. *)
Definition lookup_error (e : exn) : Prop :=
  ∃ label, e = KeyError label ∨ e = RepeatedLabel label.

(** Every column is empty: a frame of zero rows. *)
Definition zero_rows (df : DataFrame) : Prop :=
  Forall (fun col : string * Series => col.2 = []) df.

(** One facet as a condition on rows: the mask of the rows it keeps, or
    [None] when it restricts nothing (no value selected, or no such
    column). *)
Definition facet_mask (label : string) (sel : list cell) (df : DataFrame)
    : result (option (list bool)) :=
  if negb (bool_decide (sel = [])) && Pandas.has_column df label then
    let* s := Pandas.getitem df label in
    inr (Some (Pandas.isin s sel))
  else inr None.

Definition mask_and (a b : option (list bool)) : option (list bool) :=
  match a, b with
  | Some x, Some y => Some (zip_with andb x y)
  | Some x, None => Some x
  | None, _ => b
  end.

(** Following the specification's words: the rows that satisfy both
    facets, taken from [df] in one pass. *)
Definition filter_both (la : string) (sa : list cell) (lb : string) (sb : list cell)
    (df : DataFrame) : result DataFrame :=
  let* a := facet_mask la sa df in
  let* b := facet_mask lb sb df in
  inr match mask_and a b with
      | Some m => Pandas.loc df m
      | None => df
      end.

(** The five facets of [filter_block], in its order: a label and the values
    selected for it. *)
Definition facets (sel : Selections) : list (string * list cell) :=
  [ ("Année", year_sel sel); ("cats.name", cat_sel sel); ("channel", ch_sel sel);
    ("Jour de la semaine", day_sel sel); ("Heure", hour_sel sel) ].

(** The frame under a mask that may be absent. *)
Definition apply_mask (m : option (list bool)) (df : DataFrame) : DataFrame :=
  match m with
  | Some m => Pandas.loc df m
  | None => df
  end.

(** The conjunction of the masks that the facets give on [df] itself. *)
Definition selection_mask (fs : list (string * list cell)) (df : DataFrame)
    : result (option (list bool)) :=
  foldl (fun r f => let* a := r in
                    let* b := facet_mask f.1 f.2 df in
                    inr (mask_and a b))
        (inr None) fs.

(** The rows of [df] that satisfy every facet, taken in one pass. *)
Definition filter_all (df : DataFrame) (sel : Selections) : result DataFrame :=
  let* m := selection_mask (facets sel) df in
  inr (apply_mask m df).


(** The three derived columns, each with the function of "published_at"
    that [load_data] puts in it. *)
Definition derivations : list (string * (list cell -> list cell)) :=
  [ ("Année", Pandas.dt_year);
    ("Jour de la semaine", fun s => Pandas.map_dict fr_weekdays (Pandas.dt_weekday s));
    ("Heure", Pandas.dt_hour) ].

(** Every column has [n] rows. *)
Definition rectangular (n : nat) (df : DataFrame) : Prop :=
  Forall (fun col : string * list cell => length col.2 = n) df.

(** ** Small frames used as examples *)

(** A frame with the label "channel" and its variant "chaine". *)
Definition two_variants : DataFrame :=
  [ ("channel", [Str "A"]); ("chaine", [Str "B"]) ].

(** A frame with two labels that differ by case only. *)
Definition two_cases : DataFrame :=
  [ ("VUES", [Int 1]); ("vues", [Int 2]) ].

(** The selection of one channel, and of values for columns that the
    reference table lacks. *)
Definition only_channel (c : string) : Selections :=
  {| year_sel := []; cat_sel := []; ch_sel := [Str c]; day_sel := []; hour_sel := [] |}.

Definition absent_facets : Selections :=
  {| year_sel := []; cat_sel := [Str "Music"]; ch_sel := [];
     day_sel := [Str "Lundi"]; hour_sel := [] |}.

(** A frame with one name in two spellings. *)
Definition two_spellings : DataFrame :=
  [ ("Views", [Int 1]); ("VIEWS", [Int 2]) ].

(** A frame with two variants in capitals and a column of its own. *)
Definition variant_names : DataFrame :=
  [ ("Vues", [Int 100]); ("CHAINE", [Str "X"]); ("note", [Str "ok"]) ].

(** A file with one instant that reads, one that does not and one that
    is missing. *)
Definition sparse_dates : DataFrame :=
  [ ("published_at", [Str "2024-01-01T10:00:00Z"; Str "n/a"; Null]) ].

(** A frame with the KPI columns and no row. *)
Definition no_rows : DataFrame :=
  [ ("category_id", []); ("views", []); ("Taux d'engagement (%)", []);
    ("Engagement total", []); ("channel", []) ].

(** A file without the column of the total of interactions. *)
Definition no_total : DataFrame :=
  [ ("category_id", [Str "a"; Str "b"]); ("views", [Int 100; Str "many"]);
    ("Taux d'engagement (%)", [Float 2; Float 4]); ("channel", [Str "X"; Str "Y"]) ].

(** A frame with its year, channel and weekday columns; the second row
    has no date and the third no channel. *)
Definition dated : DataFrame :=
  [ ("Année", [Int 2024; Null; Int 2023; Int 2024]);
    ("channel", [Str "b"; Str "a"; Null; Str "b"]);
    ("Jour de la semaine", [Str "Mardi"; Null; Str "Lundi"; Str "Mardi"]) ].

(** * Properties *)

(** A decidable statement about concrete data, settled by evaluation. *)
Ltac by_evaluation :=
  unfold variant_of, case_distinct, zero_rows;
  apply (bool_decide_unpack _); vm_compute; exact I.

(** ** The index of lower-cased labels *)

Section Normalizer.

Implicit Types (columns : list string) (c k v : string).

Lemma lower_to_actual_snoc columns c :
  lower_to_actual (columns ++ [c]) = <[Py.lower c := c]> (lower_to_actual columns).
Proof. unfold lower_to_actual. by rewrite foldl_app. Qed.

(** Whatever the index holds under [k] is a column whose lower-cased
    name is [k]. *)
Lemma lower_to_actual_sound columns k c :
  lower_to_actual columns !! k = Some c → c ∈ columns ∧ Py.lower c = k.
Proof.
  induction columns as [|x columns IH] using rev_ind.
  - unfold lower_to_actual; simpl. by rewrite lookup_empty.
  - rewrite lower_to_actual_snoc, lookup_insert.
    case_decide as Hk.
    + intros [= <-]. split; [set_solver | done].
    + intros [Hc Hl]%IH. split; [set_solver | done].
Qed.

(** With no two labels equal up to case, every column is indexed. *)
Lemma lower_to_actual_complete columns c :
  (∀ a b, a ∈ columns → b ∈ columns → Py.lower a = Py.lower b → a = b) →
  c ∈ columns →
  lower_to_actual columns !! Py.lower c = Some c.
Proof.
  induction columns as [|x columns IH] using rev_ind; intros Hinj Hc.
  - by apply elem_of_nil in Hc.
  - rewrite lower_to_actual_snoc, lookup_insert.
    case_decide as Hk.
    + f_equal. apply Hinj; [set_solver | done | done].
    + apply IH.
      * intros a b Ha Hb. apply Hinj; set_solver.
      * apply elem_of_app in Hc as [Hc | Hc]; [done |].
        apply list_elem_of_singleton in Hc. by subst.
Qed.

Lemma case_distinct_inj columns :
  case_distinct columns →
  ∀ a b, a ∈ columns → b ∈ columns → Py.lower a = Py.lower b → a = b.
Proof.
  unfold case_distinct.
  induction columns as [|x columns IH]; intros Hnd a b Ha Hb Hab.
  - by apply elem_of_nil in Ha.
  - rewrite fmap_cons in Hnd. apply NoDup_cons in Hnd as [Hx Hnd].
    apply elem_of_cons in Ha as [-> | Ha]; apply elem_of_cons in Hb as [-> | Hb].
    + done.
    + exfalso. apply Hx. rewrite Hab. by apply list_elem_of_fmap_2.
    + exfalso. apply Hx. rewrite <- Hab. by apply list_elem_of_fmap_2.
    + by apply IH.
Qed.

(** ** The rename that is applied *)

Lemma rename_map_keys_NoDup : NoDup (rename_map.*1).
Proof. by_evaluation. Qed.

(** What the loop leaves in [final_rename], for any index that files
    columns under their lower-cased name and any table without a
    repeated key. *)
Lemma final_rename_fold (index : gmap string string) (table : list (string * string)) c v :
  (∀ k a, index !! k = Some a → Py.lower a = k) →
  NoDup (table.*1) →
  foldl (final_rename_step index) ∅ table !! c = Some v
  ↔ index !! Py.lower c = Some c ∧ (Py.lower c, v) ∈ table.
Proof.
  intros Hindex.
  induction table as [|[k w] table IH] using rev_ind; intros Hnd.
  - simpl. rewrite lookup_empty.
    split; [done | intros [_ H]; by apply elem_of_nil in H].
  - rewrite fmap_app in Hnd. apply NoDup_app in Hnd as (Hnd & Hfresh & _).
    specialize (IH Hnd).
    assert (Hk : ∀ u, (k, u) ∈ table → False).
    { intros u Hu. apply (Hfresh k); [| set_solver].
      by apply (list_elem_of_fmap_2 fst _ (k, u)). }
    rewrite foldl_app. simpl. unfold final_rename_step at 1. simpl.
    destruct (index !! k) as [a|] eqn:Ha.
    + rewrite lookup_insert. case_decide as Hac.
      * subst a. pose proof (Hindex _ _ Ha) as Hl. split.
        -- intros [= <-]. rewrite Hl. split; [done | set_solver].
        -- intros [_ Hin]. rewrite Hl in Hin.
           apply elem_of_app in Hin as [Hin | Hin]; [by destruct (Hk v) |].
           apply list_elem_of_singleton in Hin. congruence.
      * rewrite IH. split.
        -- intros [H1 H2]. split; [done | set_solver].
        -- intros [H1 Hin]. split; [done |].
           apply elem_of_app in Hin as [Hin | Hin]; [done |].
           apply list_elem_of_singleton in Hin. injection Hin as Hlk _.
           rewrite Hlk, Ha in H1. congruence.
    + rewrite IH. split.
      * intros [H1 H2]. split; [done | set_solver].
      * intros [H1 Hin]. split; [done |].
        apply elem_of_app in Hin as [Hin | Hin]; [done |].
        apply list_elem_of_singleton in Hin. injection Hin as Hlk _.
        rewrite Hlk, Ha in H1. congruence.
Qed.

(** A column is renamed to [v] exactly when it is the column indexed
    under its lower-cased name and that name is a key for [v]. *)
Lemma final_rename_lookup columns c v :
  final_rename columns !! c = Some v
  ↔ lower_to_actual columns !! Py.lower c = Some c ∧ variant_of c v.
Proof.
  apply final_rename_fold.
  - intros k a H. by apply lower_to_actual_sound in H as [_ H].
  - apply rename_map_keys_NoDup.
Qed.

(** ** What [normalize_columns] does to a frame *)

Lemma normalize_columns_data df : (normalize_columns df).*2 = df.*2.
Proof.
  unfold normalize_columns, Pandas.rename.
  generalize (final_rename (Pandas.columns df)). intros m.
  induction df as [|[l s] df IH]; [done |]. simpl. by f_equal.
Qed.

Lemma normalize_columns_labels df :
  Pandas.columns (normalize_columns df)
  = (fun c => default c (final_rename (Pandas.columns df) !! c)) <$> Pandas.columns df.
Proof.
  unfold normalize_columns, Pandas.rename, Pandas.columns.
  generalize (final_rename (map fst df)). intros m.
  induction df as [|[l s] df IH]; [done |]. simpl. by f_equal.
Qed.

Lemma normalize_columns_length df : length (normalize_columns df) = length df.
Proof. unfold normalize_columns, Pandas.rename. by rewrite length_map. Qed.

(** A column keeps its label unless it is a variant of another one. *)
Lemma rename_fixes (m : gmap string string) df :
  (∀ c v, c ∈ Pandas.columns df → m !! c = Some v → v = c) →
  Pandas.rename m df = df.
Proof.
  unfold Pandas.rename, Pandas.columns.
  induction df as [|[l s] df IH]; intros Hm; [done |]. simpl. f_equal.
  - destruct (m !! l) as [v|] eqn:Hv; [| done]. simpl.
    f_equal. apply Hm; [set_solver | done].
  - apply IH. intros c v Hc. apply Hm. set_solver.
Qed.

Lemma normalize_columns_settled df :
  (∀ c v, c ∈ Pandas.columns df → variant_of c v → v = c) →
  normalize_columns df = df.
Proof.
  intros Hs. apply rename_fixes. intros c v Hc Hv.
  apply final_rename_lookup in Hv as [_ Hv]. by apply Hs.
Qed.

(** Every value of [rename_map] is renamed to itself, if at all. *)
Lemma rename_targets_settled k v w :
  (k, v) ∈ rename_map → variant_of v w → w = v.
Proof.
  assert (H : Forall (fun kv : string * string =>
                Forall (fun kv' : string * string =>
                          kv'.1 = Py.lower kv.2 → kv'.2 = kv.2) rename_map)
                rename_map).
  { by_evaluation. }
  intros Hkv Hw. rewrite Forall_forall in H.
  specialize (H _ Hkv). rewrite Forall_forall in H.
  by apply (H _ Hw).
Qed.

(** So is every canonical label. *)
Lemma canonical_settled c w :
  c ∈ CANONICAL_COLUMNS → variant_of c w → w = c.
Proof.
  assert (H : Forall (fun c : string =>
                Forall (fun kv' : string * string =>
                          kv'.1 = Py.lower c → kv'.2 = c) rename_map)
                CANONICAL_COLUMNS).
  { by_evaluation. }
  intros Hc Hw. rewrite Forall_forall in H.
  specialize (H _ Hc). rewrite Forall_forall in H.
  by apply (H _ Hw).
Qed.

(** With labels distinct up to case, every variant is renamed. *)
Lemma final_rename_variant columns c v :
  case_distinct columns → c ∈ columns → variant_of c v →
  final_rename columns !! c = Some v.
Proof.
  intros Hd Hc Hv. apply final_rename_lookup. split; [| done].
  apply lower_to_actual_complete; [by apply case_distinct_inj | done].
Qed.

Lemma final_rename_not_variant columns c :
  (∀ v, ¬ variant_of c v) → final_rename columns !! c = None.
Proof.
  intros Hn. destruct (final_rename columns !! c) as [v|] eqn:Hv; [| done].
  apply final_rename_lookup in Hv as [_ Hv]. by destruct (Hn v).
Qed.

(** After one pass over such a frame, no label is left to rename. *)
Lemma normalize_columns_all_settled df c v :
  case_distinct (Pandas.columns df) →
  c ∈ Pandas.columns (normalize_columns df) → variant_of c v → v = c.
Proof.
  intros Hd Hc Hv. rewrite normalize_columns_labels in Hc.
  apply list_elem_of_fmap in Hc as (c0 & -> & Hc0).
  destruct (final_rename (Pandas.columns df) !! c0) as [w|] eqn:Hw; simpl in *.
  - apply final_rename_lookup in Hw as [_ Hw].
    by apply (rename_targets_settled _ _ _ Hw).
  - destruct (decide (v = c0)) as [| Hne]; [done |].
    by rewrite (final_rename_variant _ _ _ Hd Hc0 Hv) in Hw.
Qed.

Lemma filter_fmap_length_two {A B} (f : A → B) (P : B → Prop)
    `{!∀ y, Decision (P y)} (l : list A) a b :
  a ∈ l → b ∈ l → a ≠ b → P (f a) → P (f b) →
  (2 ≤ length (filter P (f <$> l)))%nat.
Proof.
  intros Ha Hb Hab Pa Pb.
  assert (Hsub : ∀ x l', x ∈ l' → P (f x) → (1 ≤ length (filter P (f <$> l')))%nat).
  { intros x l' Hx Px.
    assert (Hin : f x ∈ filter P (f <$> l')).
    { apply list_elem_of_filter. split; [done | by apply list_elem_of_fmap_2]. }
    destruct (filter P (f <$> l')); [by apply elem_of_nil in Hin | simpl; lia]. }
  induction l as [|x l IH]; [by apply elem_of_nil in Ha |].
  rewrite fmap_cons.
  apply elem_of_cons in Ha as [-> | Ha]; apply elem_of_cons in Hb as [-> | Hb].
  - done.
  - rewrite filter_cons_True by done. simpl. pose proof (Hsub _ _ Hb Pb). lia.
  - rewrite filter_cons_True by done. simpl. pose proof (Hsub _ _ Ha Pa). lia.
  - specialize (IH Ha Hb). rewrite filter_cons. destruct (decide (P (f x))); simpl; lia.
Qed.

End Normalizer.

(** ** Formatter *)

(** C8. The integer formatter writes 12345 as "12 345" and writes the
    placeholder "—" for [None] and for NaN, without raising; the decimal
    formatter with two decimals writes 12345.6 (the binary64 nearest to
    it, 0x1.81ccccccccccdp+13) as "12 345,60". *)
Theorem formatter_examples :
  _fr_int (Py.SInt 12345) = "12 345"
  ∧ _fr_int (Py.SFloat 12345) = "12 345"
  ∧ _fr_int Py.SNone = "—"
  ∧ _fr_int (Py.SFloat nan) = "—"
  ∧ _fr_float (Py.SFloat 0x1.81ccccccccccdp+13) 2 = "12 345,60".
Proof. repeat split; vm_compute; reflexivity. Qed.

(** Rounding is to the nearest integer, ties to even, as Python's [round];
    an infinity overflows the conversion to [int] and gets the placeholder. *)
Example _fr_int_rounding :
  _fr_int (Py.SFloat 2.5) = "2"
  ∧ _fr_int (Py.SFloat 3.5) = "4"
  ∧ _fr_int (Py.SFloat (-1234.5)) = "-1 234"
  ∧ _fr_int (Py.SFloat infinity) = "—"
  ∧ _fr_int (Py.SInt (2 ^ 53 + 1)) = "9 007 199 254 740 992".
Proof. repeat split; vm_compute; reflexivity. Qed.

(** The decimal formatter rounds the exact binary value; a negative
    precision is a malformed format and gets the placeholder. *)
Example _fr_float_rounding :
  _fr_float (Py.SFloat 0.125) 2 = "0,12"
  ∧ _fr_float (Py.SFloat 0x1.5666666666666p+1) 2 = "2,67"
  ∧ _fr_float (Py.SFloat (-0.25)) 0 = "-0"
  ∧ _fr_float (Py.SInt 1234567) 3 = "1 234 567,000"
  ∧ _fr_float (Py.SFloat 3) (-1) = "—".
Proof. repeat split; vm_compute; reflexivity. Qed.

(** Any missing value gets the placeholder, from either formatter. *)
Lemma formatter_missing n decimals :
  Py.isna n = true → _fr_int n = dash ∧ _fr_float n decimals = dash.
Proof. intros H. unfold _fr_int, _fr_float. by rewrite H. Qed.

(** ** Schema Normalizer *)

(** A column named "publishedAt" (or "categoryId") equals a key of the
    lookup table, even without ignoring case, and yet keeps its name: the
    loop looks the key up, as written, among lower-cased names, where a key
    with a capital is never found. *)
Lemma normalize_columns_mixed_case_key :
  ("publishedAt", "published_at") ∈ rename_map
  ∧ normalize_columns [("publishedAt", [Str "2024-01-01T10:00:00Z"])]
    = [("publishedAt", [Str "2024-01-01T10:00:00Z"])]
  ∧ ("categoryId", "category_id") ∈ rename_map
  ∧ normalize_columns [("categoryId", [Int 7])] = [("categoryId", [Int 7])].
Proof.
  repeat split; try (vm_compute; reflexivity); by_evaluation.
Qed.

(** C2, as stated, fails: "Views" and "VIEWS" both equal the key "views"
    when case is ignored, and only the later one is renamed. *)
Lemma normalize_columns_two_spellings :
  ("views", "views") ∈ rename_map
  ∧ Py.lower "Views" = "views"
  ∧ normalize_columns two_spellings = [ ("Views", [Int 1]); ("views", [Int 2]) ].
Proof. repeat split; try (vm_compute; reflexivity); by_evaluation. Qed.

Lemma lower_ascii_idempotent a : Py.lower_ascii (Py.lower_ascii a) = Py.lower_ascii a.
Proof. by destruct a as [[] [] [] [] [] [] [] []]. Qed.

Lemma lower_idempotent s : Py.lower (Py.lower s) = Py.lower s.
Proof.
  induction s as [|a s IH]; [done |]. cbn [Py.lower].
  by rewrite lower_ascii_idempotent, IH.
Qed.

(** C2, amended. In a frame whose labels are distinct up to case, for
    every entry of the lookup table whose key is written in lower case, a
    column that equals the key when case is ignored is renamed to the
    canonical name of the entry; and a column that equals no key when case
    is ignored keeps its name.  The data are untouched. *)
Theorem normalize_columns_renames_variants df :
  case_distinct (Pandas.columns df) →
  Forall2 (fun c c' =>
             (∀ k v, (k, v) ∈ rename_map → Py.lower k = k →
                     Py.lower c = Py.lower k → c' = v)
             ∧ ((∀ k v, (k, v) ∈ rename_map → Py.lower c ≠ Py.lower k) → c' = c))
          (Pandas.columns df) (Pandas.columns (normalize_columns df))
  ∧ (normalize_columns df).*2 = df.*2.
Proof.
  intros Hd. split; [| apply normalize_columns_data].
  rewrite normalize_columns_labels.
  apply Forall2_fmap_r, Forall_Forall2_diag, Forall_forall. intros c Hc. split.
  - intros k v Hkv Hk Hck.
    assert (Hv : variant_of c v) by (unfold variant_of; by rewrite Hck, Hk).
    by rewrite (final_rename_variant _ _ _ Hd Hc Hv).
  - intros Hn. rewrite final_rename_not_variant; [done |].
    intros v Hv. apply (Hn _ _ Hv). simpl. by rewrite lower_idempotent.
Qed.

Lemma normalize_columns_renames_variants_witness :
  Forall2 (fun c c' =>
             (∀ k v, (k, v) ∈ rename_map → Py.lower k = k →
                     Py.lower c = Py.lower k → c' = v)
             ∧ ((∀ k v, (k, v) ∈ rename_map → Py.lower c ≠ Py.lower k) → c' = c))
          (Pandas.columns variant_names)
          (Pandas.columns (normalize_columns variant_names))
  ∧ (normalize_columns variant_names).*2 = variant_names.*2.
Proof.
  apply (normalize_columns_renames_variants variant_names). by_evaluation.
Defined.

(** What the rename makes of that frame. *)
Example normalize_columns_variant_names :
  normalize_columns variant_names
  = [ ("views", [Int 100]); ("channel", [Str "X"]); ("note", [Str "ok"]) ].
Proof. vm_compute; reflexivity. Qed.

(** C3, as stated, fails: both variants survive, under the same name. *)
Lemma normalize_columns_two_variants :
  normalize_columns two_variants = [ ("channel", [Str "A"]); ("channel", [Str "B"]) ]
  ∧ count_label (normalize_columns two_variants) "channel" = 2%nat.
Proof. split; vm_compute; reflexivity. Qed.

(** C3, amended. In a frame whose labels are distinct up to case, two
    distinct columns that are variants of the same canonical label both
    take that label: the output has at least two columns so named, as many
    columns as the input and the same data, the rename being one pass that
    drops nothing and renames no column twice. *)
Theorem normalize_columns_keeps_both_variants df a b v :
  case_distinct (Pandas.columns df) →
  a ∈ Pandas.columns df → b ∈ Pandas.columns df → a ≠ b →
  variant_of a v → variant_of b v →
  (2 ≤ count_label (normalize_columns df) v)%nat
  ∧ length (normalize_columns df) = length df
  ∧ (normalize_columns df).*2 = df.*2.
Proof.
  intros Hd Ha Hb Hab Hav Hbv. split; [| split].
  - unfold count_label. rewrite normalize_columns_labels.
    apply (filter_fmap_length_two _ _ _ a b); try done; simpl.
    + by rewrite (final_rename_variant _ _ _ Hd Ha Hav).
    + by rewrite (final_rename_variant _ _ _ Hd Hb Hbv).
  - apply normalize_columns_length.
  - apply normalize_columns_data.
Qed.

Lemma normalize_columns_keeps_both_variants_witness :
  (2 ≤ count_label (normalize_columns two_variants) "channel")%nat
  ∧ length (normalize_columns two_variants) = length two_variants
  ∧ (normalize_columns two_variants).*2 = two_variants.*2.
Proof.
  apply (normalize_columns_keeps_both_variants two_variants "channel" "chaine" "channel").
  - by_evaluation.
  - by_evaluation.
  - by_evaluation.
  - discriminate.
  - by_evaluation.
  - by_evaluation.
Defined.

(** C5, as stated, fails: the first pass renames the column indexed under
    "vues", the second the one it had hidden. *)
Lemma normalize_columns_twice_two_cases :
  normalize_columns two_cases = [ ("VUES", [Int 1]); ("views", [Int 2]) ]
  ∧ normalize_columns (normalize_columns two_cases)
    = [ ("views", [Int 1]); ("views", [Int 2]) ].
Proof. split; vm_compute; reflexivity. Qed.

(** C5, amended. On a frame whose labels are distinct up to case a second
    pass changes nothing, and a frame whose labels are all canonical is
    left as it is. *)
Theorem normalize_columns_idempotent df :
  (case_distinct (Pandas.columns df) →
   normalize_columns (normalize_columns df) = normalize_columns df)
  ∧ (Forall (fun c => c ∈ CANONICAL_COLUMNS) (Pandas.columns df) →
     normalize_columns df = df).
Proof.
  split.
  - intros Hd. apply normalize_columns_settled. intros c v Hc Hv.
    by apply (normalize_columns_all_settled df).
  - intros Hc. apply normalize_columns_settled. intros c v Hin Hv.
    rewrite Forall_forall in Hc. by apply canonical_settled; [apply Hc |].
Qed.

Lemma normalize_columns_idempotent_witness :
  normalize_columns (normalize_columns two_variants) = normalize_columns two_variants
  ∧ normalize_columns reference_table = reference_table.
Proof.
  split.
  - apply (proj1 (normalize_columns_idempotent two_variants)).
    by_evaluation.
  - apply (proj2 (normalize_columns_idempotent reference_table)).
    by_evaluation.
Defined.

(** ** Frames: lookups, updates and masks *)

Section Frames.

Implicit Types (df : DataFrame) (label : string) (s : Series) (m : list bool).

Lemma select_nil_r {A} m : @Pandas.select A m [] = [].
Proof. by destruct m. Qed.

Lemma select_map {A B} (f : A → B) m (l : list A) :
  map f (Pandas.select m l) = Pandas.select m (map f l).
Proof.
  revert l. induction m as [|b m IH]; intros [|x l]; simpl; try done.
  destruct b; simpl; by rewrite IH.
Qed.

(** Masking by [m1], then by what [m1] leaves of [m2], is masking by
    their conjunction. *)
Lemma select_select {A} m1 m2 (l : list A) :
  Pandas.select (Pandas.select m1 m2) (Pandas.select m1 l)
  = Pandas.select (zip_with andb m1 m2) l.
Proof.
  revert m2 l. induction m1 as [|a m1 IH]; intros [|b m2] [|x l]; simpl; try done.
  - by destruct a; simpl; rewrite ?select_nil_r.
  - destruct a; simpl; [by rewrite IH | apply IH].
Qed.

Lemma zip_with_andb_comm m1 m2 : zip_with andb m1 m2 = zip_with andb m2 m1.
Proof.
  revert m2. induction m1 as [|a m1 IH]; intros [|b m2]; simpl; try done.
  by rewrite IH, andb_comm.
Qed.

Lemma isin_select m s values :
  Pandas.isin (Pandas.select m s) values = Pandas.select m (Pandas.isin s values).
Proof. apply select_map. Qed.

Lemma columns_loc df m : Pandas.columns (Pandas.loc df m) = Pandas.columns df.
Proof.
  unfold Pandas.columns, Pandas.loc. rewrite map_map. by apply map_ext.
Qed.

Lemma has_column_loc df m label :
  Pandas.has_column (Pandas.loc df m) label = Pandas.has_column df label.
Proof. unfold Pandas.has_column. by rewrite columns_loc. Qed.

Lemma loc_loc df m1 m2 :
  Pandas.loc (Pandas.loc df m1) (Pandas.select m1 m2)
  = Pandas.loc df (zip_with andb m1 m2).
Proof.
  unfold Pandas.loc. rewrite map_map. apply map_ext. intros [l s]. simpl.
  by rewrite select_select.
Qed.

Lemma filter_label_loc df m label :
  filter (fun col : string * Series => col.1 = label) (Pandas.loc df m)
  = Pandas.loc (filter (fun col : string * Series => col.1 = label) df) m.
Proof.
  unfold Pandas.loc. induction df as [|[l s] df IH]; [done |].
  cbn [map]. rewrite !filter_cons. cbn [fst snd].
  destruct (decide (l = label)); cbn [map fst snd]; by rewrite IH.
Qed.

(** A mask reaches a column through its label like the frame. *)
Lemma getitem_loc df m label :
  Pandas.getitem (Pandas.loc df m) label
  = let* s := Pandas.getitem df label in inr (Pandas.select m s).
Proof.
  unfold Pandas.getitem. rewrite filter_label_loc.
  destruct (filter _ df) as [|[l s] [|? ?]]; done.
Qed.

Lemma getitem_error df label e :
  Pandas.getitem df label = inl e → e = KeyError label ∨ e = RepeatedLabel label.
Proof.
  unfold Pandas.getitem.
  destruct (filter _ df) as [|[l s] [|? ?]]; intros [= <-]; auto.
Qed.

End Frames.

(** ** Filter Engine *)

Lemma slicer_facet_mask label sel df :
  slicer label sel df
  = let* m := facet_mask label sel df in
    inr match m with Some m => Pandas.loc df m | None => df end.
Proof.
  unfold slicer, facet_mask.
  destruct (negb _ && _); [| done].
  by destruct (Pandas.getitem df label).
Qed.

Lemma facet_mask_loc label sel df m :
  facet_mask label sel (Pandas.loc df m)
  = let* o := facet_mask label sel df in inr (Pandas.select m <$> o).
Proof.
  unfold facet_mask. rewrite has_column_loc.
  destruct (negb _ && _); [| done].
  rewrite getitem_loc.
  destruct (Pandas.getitem df label); simpl; [done |].
  by rewrite isin_select.
Qed.

(** C6. Filtering by one facet and then by another gives the rows that
    filtering in the other order gives, and the rows that satisfy both
    facets at once; a run that raises gives none in any of the three. *)
Theorem slicer_order_irrelevant df la sa lb sb :
  value (let* fdf := slicer la sa df in slicer lb sb fdf)
  = value (let* fdf := slicer lb sb df in slicer la sa fdf)
  ∧ value (let* fdf := slicer la sa df in slicer lb sb fdf)
    = value (filter_both la sa lb sb df).
Proof.
  unfold filter_both. rewrite !slicer_facet_mask.
  destruct (facet_mask la sa df) as [ea | [ma |]] eqn:Ha;
    destruct (facet_mask lb sb df) as [eb | [mb |]] eqn:Hb; simpl;
    rewrite ?slicer_facet_mask, ?facet_mask_loc, ?Ha, ?Hb; simpl; try done.
  rewrite !loc_loc. by rewrite (zip_with_andb_comm mb ma).
Qed.

(** ** Frames: one column at a time *)

Section Updates.

Implicit Types (df : DataFrame) (label : string) (s : Series).

Lemma map_fmap {A B} (f : A → B) (l : list A) : map f l = f <$> l.
Proof. reflexivity. Qed.

Lemma has_column_true df label :
  Pandas.has_column df label = true ↔ label ∈ Pandas.columns df.
Proof. unfold Pandas.has_column. apply bool_decide_eq_true. Qed.

Lemma has_column_false df label :
  Pandas.has_column df label = false ↔ label ∉ Pandas.columns df.
Proof. unfold Pandas.has_column. apply bool_decide_eq_false. Qed.

Lemma filter_label_absent df label :
  label ∉ Pandas.columns df →
  filter (fun col : string * list cell => col.1 = label) df = [].
Proof.
  unfold Pandas.columns. induction df as [|[l s] df IH]; intros Hl; [done |].
  cbn [map fst] in Hl. apply not_elem_of_cons in Hl as [Hne Hl].
  rewrite filter_cons_False by (simpl; congruence). by apply IH.
Qed.

Lemma getitem_absent df label :
  label ∉ Pandas.columns df → Pandas.getitem df label = inl (KeyError label).
Proof. intros H. unfold Pandas.getitem. by rewrite filter_label_absent. Qed.

Lemma getitem_present df label s :
  Pandas.getitem df label = inr s → (label, s) ∈ df.
Proof.
  unfold Pandas.getitem.
  destruct (filter _ df) as [|[l s0] [|? ?]] eqn:Hf; intros [= <-].
  assert (Hin : (l, s0) ∈ filter (fun col : string * list cell => col.1 = label) df)
    by (rewrite Hf; set_solver).
  apply list_elem_of_filter in Hin as [Hl Hin]. simpl in Hl. by subst.
Qed.

Lemma getitem_cons_ne df l s label :
  l ≠ label → Pandas.getitem ((l, s) :: df) label = Pandas.getitem df label.
Proof. intros H. unfold Pandas.getitem. by rewrite filter_cons_False. Qed.

Lemma getitem_cons_fresh df label s :
  label ∉ Pandas.columns df → Pandas.getitem ((label, s) :: df) label = inr s.
Proof.
  intros H. unfold Pandas.getitem.
  rewrite filter_cons_True by done. by rewrite filter_label_absent.
Qed.

(** In a frame without repeated labels every label it has gives its
    column. *)
Lemma getitem_unique df label :
  NoDup (Pandas.columns df) → label ∈ Pandas.columns df →
  ∃ s, Pandas.getitem df label = inr s.
Proof.
  unfold Pandas.columns at 1 2.
  induction df as [|[l s] df IH]; intros Hnd Hl; [by apply elem_of_nil in Hl |].
  cbn [map fst] in *. apply NoDup_cons in Hnd as [Hfresh Hnd].
  destruct (decide (l = label)) as [-> | Hne].
  - exists s. by apply getitem_cons_fresh.
  - rewrite getitem_cons_ne by done. apply IH; [done |].
    apply elem_of_cons in Hl as [Hl | Hl]; [congruence | done].
Qed.

Lemma getitem_app_other df l s label :
  l ≠ label →
  Pandas.getitem (df ++ [(l, s)])%list label = Pandas.getitem df label.
Proof.
  intros H. unfold Pandas.getitem.
  rewrite filter_app, (filter_cons_False _ (l, s)) by done.
  by rewrite filter_nil, app_nil_r.
Qed.

Lemma getitem_app_fresh df label s :
  label ∉ Pandas.columns df →
  Pandas.getitem (df ++ [(label, s)])%list label = inr s.
Proof.
  intros H. unfold Pandas.getitem.
  rewrite filter_app, filter_label_absent by done.
  by rewrite filter_cons_True.
Qed.

Lemma columns_setitem df label s :
  Pandas.columns (Pandas.setitem df label s)
  = if Pandas.has_column df label then Pandas.columns df
    else (Pandas.columns df ++ [label])%list.
Proof.
  unfold Pandas.setitem. destruct (Pandas.has_column df label).
  - unfold Pandas.columns. rewrite map_map. apply map_ext. intros [l s0]. simpl.
    case_bool_decide; simpl; congruence.
  - unfold Pandas.columns. by rewrite map_app.
Qed.

Lemma has_column_setitem df label s l :
  Pandas.has_column (Pandas.setitem df label s) l
  = Pandas.has_column df l || bool_decide (l = label).
Proof.
  unfold Pandas.has_column at 1. rewrite columns_setitem.
  destruct (Pandas.has_column df label) eqn:Hh.
  - unfold Pandas.has_column. case_bool_decide as H1; case_bool_decide as H2; try done.
    subst. by apply has_column_true in Hh.
  - unfold Pandas.has_column. rewrite bool_decide_decide.
    case_bool_decide as H1; case_bool_decide as H2; case_decide as H3;
      try done; set_solver.
Qed.

Lemma getitem_setitem_other df label s l :
  l ≠ label →
  Pandas.getitem (Pandas.setitem df label s) l = Pandas.getitem df l.
Proof.
  intros Hne. unfold Pandas.setitem. destruct (Pandas.has_column df label).
  - unfold Pandas.getitem.
    assert (Hf : filter (fun col : string * list cell => col.1 = l)
                   (map (fun col : string * list cell =>
                           if bool_decide (col.1 = label) then (label, s) else col) df)
                 = filter (fun col : string * list cell => col.1 = l) df).
    { induction df as [|[l0 s0] df IH]; [done |]. cbn [map].
      rewrite !filter_cons. cbn [fst]. case_bool_decide as Hl0; cbn [fst].
      - subst l0. destruct (decide (label = l)); [congruence | done].
      - destruct (decide (l0 = l)); by rewrite IH. }
    by rewrite Hf.
  - by apply getitem_app_other.
Qed.

Lemma getitem_setitem_same df label s s0 :
  Pandas.getitem df label = inr s0 →
  Pandas.getitem (Pandas.setitem df label s) label = inr s.
Proof.
  intros Hg. unfold Pandas.setitem.
  assert (Hin : label ∈ Pandas.columns df).
  { apply getitem_present in Hg. by apply (list_elem_of_fmap_2 fst _ (label, s0)). }
  apply has_column_true in Hin as Hh. rewrite Hh. clear Hin Hh.
  revert Hg. unfold Pandas.getitem.
  assert (Hf : filter (fun col : string * list cell => col.1 = label)
                 (map (fun col : string * list cell =>
                         if bool_decide (col.1 = label) then (label, s) else col) df)
               = map (fun _ => (label, s))
                     (filter (fun col : string * list cell => col.1 = label) df)).
  { induction df as [|[l1 s1] df IH]; [done |]. cbn [map].
    rewrite !filter_cons. cbn [fst]. case_bool_decide as Hl; cbn [fst].
    - subst l1. destruct (decide (label = label)); [| done]. cbn [map]. by rewrite IH.
    - destruct (decide (l1 = label)); [done | by rewrite IH]. }
  rewrite Hf. by destruct (filter _ df) as [|? [|? ?]].
Qed.

End Updates.

(** ** Loader *)

(** Inversion of a [let*] that ran to a value. *)
Ltac bind_inv H x E :=
  match type of H with
  | bind ?r _ = inr _ =>
      destruct r as [? | x] eqn:E; cbn [bind] in H; [discriminate H |]
  end.

Section LoaderProperties.

Context (blob : Type) (read_csv read_parquet : blob → option DataFrame).
Context (to_datetime : list cell → list (option Z)).
Context (number_of_string : string → option (Z + float)).

Local Abbreviation timestamps' := (timestamps to_datetime).
Local Abbreviation to_numeric' := (to_numeric number_of_string).
Local Abbreviation coerce' := (coerce number_of_string).
Local Abbreviation prepare' := (prepare to_datetime number_of_string).
Local Abbreviation load_data' :=
  (load_data blob read_csv read_parquet to_datetime number_of_string).

Implicit Types (df : DataFrame) (label : string) (s : Series).

Lemma assign_inr df target source f df' :
  assign df target source f = inr df' →
  ∃ s, Pandas.getitem df source = inr s ∧ df' = Pandas.setitem df target (f s).
Proof.
  unfold assign. destruct (Pandas.getitem df source) as [e | s]; simpl; [done |].
  intros [= <-]. by exists s.
Qed.

Lemma assign_inl df target source f e :
  assign df target source f = inl e → lookup_error e.
Proof.
  unfold assign. destruct (Pandas.getitem df source) as [e' | s] eqn:Hg; simpl; [| done].
  intros [= <-]. exists source. by apply getitem_error in Hg.
Qed.

Lemma getitem_setitem_fresh df label s :
  Pandas.has_column df label = false →
  Pandas.getitem (Pandas.setitem df label s) label = inr s.
Proof.
  intros Hh. unfold Pandas.setitem. rewrite Hh.
  apply getitem_app_fresh. by apply has_column_false.
Qed.

(** *** Deriving a column *)

Lemma derive_inr target f df df' :
  derive target f df = inr df' →
  (Pandas.has_column df target = true ∧ df' = df)
  ∨ (Pandas.has_column df target = false
     ∧ ∃ p, Pandas.getitem df "published_at" = inr p
            ∧ df' = Pandas.setitem df target (f p)).
Proof.
  unfold derive. destruct (Pandas.has_column df target).
  - intros [= <-]. by left.
  - intros H. right. split; [done |]. by apply assign_inr in H.
Qed.

Lemma derive_inl target f df e : derive target f df = inl e → lookup_error e.
Proof.
  unfold derive. destruct (Pandas.has_column df target); [done |]. apply assign_inl.
Qed.

Lemma derive_getitem_other target f df df' label :
  derive target f df = inr df' → label ≠ target →
  Pandas.getitem df' label = Pandas.getitem df label.
Proof.
  intros [[_ ->] | (_ & p & _ & ->)]%derive_inr Hne; [done |].
  by apply getitem_setitem_other.
Qed.

Lemma derive_has_column_other target f df df' label :
  derive target f df = inr df' → label ≠ target →
  Pandas.has_column df' label = Pandas.has_column df label.
Proof.
  intros [[_ ->] | (_ & p & _ & ->)]%derive_inr Hne; [done |].
  rewrite has_column_setitem. rewrite (bool_decide_eq_false_2 _ Hne).
  apply orb_false_r.
Qed.

Lemma derive_getitem_target target f df df' p :
  derive target f df = inr df' →
  Pandas.has_column df target = false →
  Pandas.getitem df "published_at" = inr p →
  Pandas.getitem df' target = inr (f p).
Proof.
  intros [[Hh _] | (Hh & p' & Hp & ->)]%derive_inr Habs Hg; [congruence |].
  rewrite Hg in Hp. injection Hp as <-. by apply getitem_setitem_fresh.
Qed.

(** *** Coercing the numeric columns *)

Lemma coerce_inr df col df' :
  coerce' df col = inr df' →
  (Pandas.has_column df col = false ∧ df' = df)
  ∨ (∃ s, Pandas.getitem df col = inr s ∧ df' = Pandas.setitem df col (to_numeric' s)).
Proof.
  unfold coerce. destruct (Pandas.has_column df col).
  - intros H. right. by apply assign_inr in H.
  - intros [= <-]. by left.
Qed.

Lemma coerce_inl df col e : coerce' df col = inl e → lookup_error e.
Proof.
  unfold coerce. destruct (Pandas.has_column df col); [| done]. apply assign_inl.
Qed.

Lemma coerce_getitem_other df col df' label :
  coerce' df col = inr df' → label ≠ col →
  Pandas.getitem df' label = Pandas.getitem df label.
Proof.
  intros [[_ ->] | (s & _ & ->)]%coerce_inr Hne; [done |].
  by apply getitem_setitem_other.
Qed.

Lemma coerce_columns df col df' :
  coerce' df col = inr df' → Pandas.columns df' = Pandas.columns df.
Proof.
  intros [[_ ->] | (s & Hs & ->)]%coerce_inr; [done |].
  rewrite columns_setitem.
  assert (Hin : col ∈ Pandas.columns df).
  { apply getitem_present in Hs. by apply (list_elem_of_fmap_2 fst _ (col, s)). }
  apply has_column_true in Hin. by rewrite Hin.
Qed.


Lemma coerce_all_inr r cols df :
  foldl (fun r col => let* df := r in coerce' df col) r cols = inr df →
  ∃ df0, r = inr df0
         ∧ Pandas.columns df = Pandas.columns df0
         ∧ ∀ label, label ∉ cols → Pandas.getitem df label = Pandas.getitem df0 label.
Proof.
  revert r. induction cols as [|col cols IH]; intros r H; simpl in H.
  - exists df. by subst r.
  - apply IH in H as (df1 & H1 & Hcols & Hkeep).
    destruct r as [e | df0]; simpl in H1; [done |].
    exists df0. split; [done |]. split.
    + rewrite Hcols. by apply coerce_columns in H1.
    + intros label Hl. apply not_elem_of_cons in Hl as [Hne Hl].
      rewrite (Hkeep _ Hl). by apply (coerce_getitem_other _ _ _ _ H1).
Qed.

Lemma coerce_all_error r cols e :
  foldl (fun r col => let* df := r in coerce' df col) r cols = inl e →
  r = inl e ∨ lookup_error e.
Proof.
  revert r. induction cols as [|col cols IH]; intros r H; simpl in H; [by left |].
  apply IH in H as [H | H]; [| by right].
  destruct r as [e' | df0]; simpl in H; [by left |].
  right. by apply coerce_inl in H.
Qed.

(** [prepare'] raises nothing but the exception of a lookup. *)
Lemma prepare_inl raw e : prepare' raw = inl e → lookup_error e.
Proof.
  unfold prepare. intros H.
  destruct (if Pandas.has_column (normalize_columns raw) "published_at"
            then _ else _) as [e1 | df1] eqn:E1; cbn [bind] in H.
  { injection H as ->.
    destruct (Pandas.has_column _ _); [by apply assign_inl in E1 | done]. }
  destruct (if Pandas.has_column df1 "published_at" then _ else _)
    as [e2 | df4] eqn:E2; cbn [bind] in H.
  { injection H as ->.
    destruct (Pandas.has_column df1 _); [| done].
    destruct (derive "Année" _ df1) as [e3 | df2] eqn:E3; cbn [bind] in E2.
    { injection E2 as ->. by apply derive_inl in E3. }
    destruct (derive "Jour de la semaine" _ df2) as [e4 | df3] eqn:E4; cbn [bind] in E2.
    { injection E2 as ->. by apply derive_inl in E4. }
    by apply derive_inl in E2. }
  by apply coerce_all_error in H as [H | H].
Qed.

(** C9. With no file the loader returns the frame without rows or
    columns and raises nothing; it raises the unsupported-format error,
    and so returns no frame at all, exactly when it is given a file whose
    name, lower-cased, ends neither in ".csv" nor in ".parquet". *)
Theorem load_data_dispatch :
  load_data' None = inr Pandas.empty_frame
  ∧ Pandas.columns Pandas.empty_frame = []
  ∧ Pandas.nrows Pandas.empty_frame = 0%nat
  ∧ ∀ uploaded_file,
      load_data' uploaded_file = inl UnsupportedFormat
      ↔ ∃ f, uploaded_file = Some f ∧ supported (name f) = false.
Proof.
  repeat split; try done.
  - intros H. destruct uploaded_file as [f |]; [| done].
    exists f. split; [done |]. unfold supported.
    unfold load_data in H.
    destruct (Py.endswith (Py.lower (name f)) ".csv").
    { destruct (read_csv (content f)); simpl in H; [| done].
      apply prepare_inl in H as (lbl & [H | H]); done. }
    destruct (Py.endswith (Py.lower (name f)) ".parquet"); [| done].
    destruct (read_parquet (content f)); simpl in H; [| done].
    apply prepare_inl in H as (lbl & [H | H]); done.
  - intros (f & -> & H). unfold supported in H.
    apply orb_false_iff in H as [H1 H2].
    unfold load_data. by rewrite H1, H2.
Qed.

(** *** Derived columns *)

Lemma dt_field_null g s i c :
  s !! i = Some c → Pandas.isna c = true →
  Pandas.dt_field g s !! i = Some Null.
Proof.
  intros Hi Hc. unfold Pandas.dt_field.
  rewrite map_fmap, list_lookup_fmap, Hi. by destruct c.
Qed.

Lemma map_dict_null d s i :
  s !! i = Some Null → Pandas.map_dict d s !! i = Some Null.
Proof.
  intros Hi. unfold Pandas.map_dict. by rewrite map_fmap, list_lookup_fmap, Hi.
Qed.

(** C7. In the loaded frame, a row whose "published_at" is missing (it
    was so in the file, or could not be read as an instant) has a missing
    value in every column the loader derived from it: year, weekday name
    and hour. *)
Theorem derived_columns_null raw df target pub der i c :
  prepare' raw = inr df →
  target ∈ DERIVED_COLUMNS →
  Pandas.has_column (normalize_columns raw) target = false →
  Pandas.getitem df "published_at" = inr pub →
  Pandas.getitem df target = inr der →
  pub !! i = Some c → Pandas.isna c = true →
  der !! i = Some Null.
Proof.
  intros Hprep Ht Habs Hpub Hder Hi Hc.
  unfold prepare in Hprep.
  set (df0 := normalize_columns raw) in *.
  destruct (Pandas.has_column df0 "published_at") eqn:Hhas.
  2: { exfalso. cbn [bind] in Hprep. rewrite Hhas in Hprep. cbn [bind] in Hprep.
       apply coerce_all_inr in Hprep as (df' & [= <-] & _ & Hkeep).
       rewrite Hkeep in Hpub by by_evaluation.
       rewrite getitem_absent in Hpub; [done | by apply has_column_false]. }
  bind_inv Hprep df1 E1. apply assign_inr in E1 as (s0 & Hs0 & ->).
  set (pub1 := timestamps' s0) in *.
  set (df1 := Pandas.setitem df0 "published_at" pub1) in *.
  assert (Hh1 : Pandas.has_column df1 "published_at" = true).
  { unfold df1. by rewrite has_column_setitem, Hhas. }
  assert (Hp1 : Pandas.getitem df1 "published_at" = inr pub1).
  { unfold df1. by apply (getitem_setitem_same _ _ _ s0). }
  assert (Ha1 : Pandas.has_column df1 target = Pandas.has_column df0 target).
  { unfold df1. rewrite has_column_setitem. rewrite Habs. simpl.
    apply bool_decide_eq_false_2. intros ->. congruence. }
  rewrite Hh1 in Hprep.
  bind_inv Hprep df4 E. bind_inv E df2 E2. bind_inv E df3 E3.
  apply coerce_all_inr in Hprep as (df' & [= <-] & _ & Hkeep).
  assert (Hp2 : Pandas.getitem df2 "published_at" = inr pub1).
  { by rewrite (derive_getitem_other _ _ _ _ _ E2). }
  assert (Hp3 : Pandas.getitem df3 "published_at" = inr pub1).
  { by rewrite (derive_getitem_other _ _ _ _ _ E3). }
  assert (Hp4 : Pandas.getitem df4 "published_at" = inr pub1).
  { by rewrite (derive_getitem_other _ _ _ _ _ E). }
  rewrite Hkeep, Hp4 in Hpub by by_evaluation. injection Hpub as <-.
  apply list_elem_of_In in Ht. simpl in Ht.
  destruct Ht as [<- | [<- | [<- | []]]].
  - rewrite Hkeep in Hder by by_evaluation.
    rewrite (derive_getitem_other _ _ _ _ _ E) in Hder by done.
    rewrite (derive_getitem_other _ _ _ _ _ E3) in Hder by done.
    rewrite (derive_getitem_target _ _ _ _ pub1 E2) in Hder by congruence.
    injection Hder as <-. by apply (dt_field_null _ _ _ c).
  - rewrite Hkeep in Hder by by_evaluation.
    rewrite (derive_getitem_other _ _ _ _ _ E) in Hder by done.
    rewrite (derive_getitem_target _ _ _ _ pub1 E3) in Hder;
      [| by rewrite (derive_has_column_other _ _ _ _ _ E2); [congruence |] | done].
    injection Hder as <-. apply map_dict_null. by apply (dt_field_null _ _ _ c).
  - rewrite Hkeep in Hder by by_evaluation.
    rewrite (derive_getitem_target _ _ _ _ pub1 E) in Hder;
      [| rewrite (derive_has_column_other _ _ _ _ _ E3) by done;
         rewrite (derive_has_column_other _ _ _ _ _ E2) by done; congruence
       | done].
    injection Hder as <-. by apply (dt_field_null _ _ _ c).
Qed.

(** The guard of the derivation: a column of that name that the file
    supplied is kept as it is. *)
Lemma derive_keeps_supplied target f df df' label :
  derive target f df = inr df' → Pandas.has_column df label = true →
  Pandas.getitem df' label = Pandas.getitem df label
  ∧ Pandas.has_column df' label = true.
Proof.
  intros [[_ ->] | (Hh & p & _ & ->)]%derive_inr Hl; [done |].
  assert (Hne : label ≠ target) by (intros ->; congruence).
  split; [by apply getitem_setitem_other |].
  by rewrite has_column_setitem, Hl.
Qed.

(** X8. A column that the file supplies under the name of a derived one is
    kept as it is: the loader puts nothing over it. *)
Lemma supplied_column_kept raw df target :
  prepare' raw = inr df →
  target ∈ DERIVED_COLUMNS →
  Pandas.has_column (normalize_columns raw) target = true →
  Pandas.getitem df target = Pandas.getitem (normalize_columns raw) target.
Proof.
  intros Hprep Ht Hsup. unfold prepare in Hprep.
  set (df0 := normalize_columns raw) in *.
  assert (Hnum : target ∉ NUMERIC_COLUMNS).
  { apply list_elem_of_In in Ht. simpl in Ht.
    destruct Ht as [<- | [<- | [<- | []]]]; by_evaluation. }
  assert (Hpa : target ≠ "published_at").
  { apply list_elem_of_In in Ht. simpl in Ht.
    destruct Ht as [<- | [<- | [<- | []]]]; done. }
  destruct (Pandas.has_column df0 "published_at") eqn:Hhas.
  2: { cbn [bind] in Hprep. rewrite Hhas in Hprep. cbn [bind] in Hprep.
       apply coerce_all_inr in Hprep as (df' & [= <-] & _ & Hkeep).
       by apply Hkeep. }
  bind_inv Hprep df1 E1. apply assign_inr in E1 as (s0 & Hs0 & ->).
  set (df1 := Pandas.setitem df0 "published_at" (timestamps' s0)) in *.
  assert (Hg1 : Pandas.getitem df1 target = Pandas.getitem df0 target).
  { unfold df1. by apply getitem_setitem_other. }
  assert (Hh1 : Pandas.has_column df1 target = true).
  { unfold df1. by rewrite has_column_setitem, Hsup. }
  assert (Hp1 : Pandas.has_column df1 "published_at" = true).
  { unfold df1. by rewrite has_column_setitem, Hhas. }
  rewrite Hp1 in Hprep.
  bind_inv Hprep df4 E. bind_inv E df2 E2. bind_inv E df3 E3.
  apply coerce_all_inr in Hprep as (df' & [= <-] & _ & Hkeep).
  destruct (derive_keeps_supplied _ _ _ _ _ E2 Hh1) as [Hg2 Hh2].
  destruct (derive_keeps_supplied _ _ _ _ _ E3 Hh2) as [Hg3 Hh3].
  destruct (derive_keeps_supplied _ _ _ _ _ E Hh3) as [Hg4 _].
  by rewrite (Hkeep _ Hnum), Hg4, Hg3, Hg2.
Qed.

End LoaderProperties.

Lemma derived_columns_null_witness :
  ∃ df pub der,
    prepare Iso8601.to_datetime (fun _ => None) sparse_dates = inr df
    ∧ Pandas.getitem df "published_at" = inr pub
    ∧ Pandas.getitem df "Année" = inr der
    ∧ pub !! 1%nat = Some Null
    ∧ der !! 1%nat = Some Null.
Proof.
  eexists _, _, _.
  split; [vm_compute; reflexivity |].
  split; [vm_compute; reflexivity |].
  split; [vm_compute; reflexivity |].
  split; [vm_compute; reflexivity |].
  eapply (derived_columns_null Iso8601.to_datetime (fun _ => None)
            sparse_dates _ "Année" _ _ 1%nat Null).
  - vm_compute; reflexivity.
  - by_evaluation.
  - vm_compute; reflexivity.
  - vm_compute; reflexivity.
  - vm_compute; reflexivity.
  - vm_compute; reflexivity.
  - vm_compute; reflexivity.
Defined.

(** ** KPI Aggregator *)

(** C4. On a frame of zero rows that has the KPI columns, the total of
    interactions is 0 while the two means are NaN: the card of the sum
    reads "0", those of the means read the placeholder. *)
Theorem kpi_block_zero_rows fdf :
  zero_rows fdf →
  NoDup (Pandas.columns fdf) →
  Forall (fun label => label ∈ Pandas.columns fdf) KPI_COLUMNS →
  ∃ k, kpi_values fdf = inr k
       ∧ interactions k = Py.SInt 0
       ∧ mean_views k = Py.SFloat nan
       ∧ mean_engagement k = Py.SFloat nan
       ∧ kpi_block fdf = inr ("0", "—", "— %", "0").
Proof.
  intros Hzero Hnd Hcols.
  assert (Hget : ∀ label, label ∈ KPI_COLUMNS → Pandas.getitem fdf label = inr []).
  { intros label Hl. rewrite Forall_forall in Hcols.
    destruct (getitem_unique fdf label Hnd (Hcols _ Hl)) as [s Hs].
    rewrite Hs. f_equal. apply getitem_present in Hs.
    unfold zero_rows in Hzero. rewrite Forall_forall in Hzero.
    by apply (Hzero _ Hs). }
  unfold kpi_block, kpi_values.
  rewrite !Hget by by_evaluation.
  eexists. split; [reflexivity |]. repeat split; vm_compute; reflexivity.
Qed.

Lemma kpi_block_zero_rows_witness :
  ∃ k, kpi_values no_rows = inr k
       ∧ interactions k = Py.SInt 0
       ∧ mean_views k = Py.SFloat nan
       ∧ mean_engagement k = Py.SFloat nan
       ∧ kpi_block no_rows = inr ("0", "—", "— %", "0").
Proof.
  apply (kpi_block_zero_rows no_rows).
  - by_evaluation.
  - by_evaluation.
  - by_evaluation.
Defined.

(** *** Numeric columns, from the loader to the cards *)

Section KpiProperties.

Context (to_datetime : list cell → list (option Z)).
Context (number_of_string : string → option (Z + float)).

Local Abbreviation to_numeric' := (to_numeric number_of_string).
Local Abbreviation coerce' := (coerce number_of_string).
Local Abbreviation prepare' := (prepare to_datetime number_of_string).

Implicit Types (df fdf : DataFrame) (label : string) (s : Series).

Lemma to_numeric_is_numeric s : Pandas.is_numeric_series (to_numeric' s) = true.
Proof.
  unfold Pandas.is_numeric_series, to_numeric.
  induction s as [|c s IH]; [done |]. cbn [map forallb]. rewrite IH.
  destruct c as [| | |t|]; try done.
  by destruct (number_of_string t) as [[|]|].
Qed.

Lemma coerce_numeric df col df' s :
  coerce' df col = inr df' → Pandas.getitem df' col = inr s →
  Pandas.is_numeric_series s = true.
Proof.
  intros [[Hh ->] | (s0 & Hs0 & ->)]%coerce_inr Hs.
  - apply has_column_false in Hh. by rewrite getitem_absent in Hs.
  - rewrite (getitem_setitem_same _ _ _ _ Hs0) in Hs. injection Hs as <-.
    apply to_numeric_is_numeric.
Qed.

Lemma coerce_all_numeric r cols df col s :
  NoDup cols →
  foldl (fun r col => let* df := r in coerce' df col) r cols = inr df →
  col ∈ cols → Pandas.getitem df col = inr s →
  Pandas.is_numeric_series s = true.
Proof.
  revert r. induction cols as [|c cols IH]; intros r Hnd H Hin Hs.
  - by apply elem_of_nil in Hin.
  - apply NoDup_cons in Hnd as [Hc Hnd]. simpl in H.
    apply elem_of_cons in Hin as [-> | Hin]; [| by apply (IH _ Hnd H)].
    apply (coerce_all_inr number_of_string) in H as (df1 & H1 & _ & Hkeep).
    destruct r as [e | df0]; [done |]. cbn [bind] in H1.
    rewrite (Hkeep _ Hc) in Hs. by apply (coerce_numeric _ _ _ _ H1).
Qed.

(** What [load_data'] returns has numbers, or nothing, in the columns it
    coerces. *)
Lemma prepare_numeric raw df col s :
  prepare' raw = inr df → col ∈ NUMERIC_COLUMNS →
  Pandas.getitem df col = inr s → Pandas.is_numeric_series s = true.
Proof.
  unfold prepare. intros H Hcol Hs.
  bind_inv H df1 E1. bind_inv H df4 E2.
  by apply (coerce_all_numeric (inr df4) NUMERIC_COLUMNS df col s); [by_evaluation | ..].
Qed.

(** *** Masks keep labels and numbers *)

Lemma select_numeric m s :
  Pandas.is_numeric_series s = true →
  Pandas.is_numeric_series (Pandas.select m s) = true.
Proof.
  unfold Pandas.is_numeric_series.
  revert s. induction m as [|b m IH]; intros [|c s]; simpl; try done.
  intros [Hc Hs]%andb_true_iff. destruct b; simpl; [rewrite Hc |]; by apply IH.
Qed.

Lemma columns_masks df (ms : list (list bool)) :
  Pandas.columns (foldl Pandas.loc df ms) = Pandas.columns df.
Proof.
  revert df. induction ms as [|m ms IH]; intros df; [done |].
  simpl. by rewrite IH, columns_loc.
Qed.

Lemma getitem_masks_numeric df (ms : list (list bool)) label s' :
  Pandas.getitem (foldl Pandas.loc df ms) label = inr s' →
  ∃ s, Pandas.getitem df label = inr s
       ∧ (Pandas.is_numeric_series s = true → Pandas.is_numeric_series s' = true).
Proof.
  revert df. induction ms as [|m ms IH]; intros df H; simpl in H.
  - by exists s'.
  - apply IH in H as (s1 & H1 & Hn). rewrite getitem_loc in H1.
    destruct (Pandas.getitem df label) as [e | s]; simpl in H1; [done |].
    injection H1 as <-. exists s. split; [done |].
    intros Hs. by apply Hn, select_numeric.
Qed.

(** With no repeated label a slicer cannot raise: it leaves the frame
    or masks it. *)
Lemma slicer_masks label sel df :
  NoDup (Pandas.columns df) →
  ∃ ms, slicer label sel df = inr (foldl Pandas.loc df ms).
Proof.
  intros Hnd. unfold slicer.
  destruct (negb _) ; simpl; [| by exists []].
  destruct (Pandas.has_column df label) eqn:Hh; [| by exists []].
  apply has_column_true in Hh.
  destruct (getitem_unique _ _ Hnd Hh) as [s ->]. simpl.
  by exists [Pandas.isin s sel].
Qed.

Lemma filter_block_masks df sel :
  NoDup (Pandas.columns df) →
  ∃ ms, filter_block df sel = inr (foldl Pandas.loc df ms).
Proof.
  intros Hnd. unfold filter_block.
  assert (Hstep : ∀ label values ms,
            ∃ ms', slicer label values (foldl Pandas.loc df ms)
                   = inr (foldl Pandas.loc df ms')).
  { intros label values ms.
    destruct (slicer_masks label values (foldl Pandas.loc df ms)) as [ms' ->].
    - by rewrite columns_masks.
    - exists (ms ++ ms')%list. by rewrite foldl_app. }
  destruct (Hstep "Année" (year_sel sel) []) as [ms1 H1].
  simpl in H1. rewrite H1. cbn [bind].
  destruct (Hstep "cats.name" (cat_sel sel) ms1) as [ms2 ->]. cbn [bind].
  destruct (Hstep "channel" (ch_sel sel) ms2) as [ms3 ->]. cbn [bind].
  destruct (Hstep "Jour de la semaine" (day_sel sel) ms3) as [ms4 ->]. cbn [bind].
  apply Hstep.
Qed.

(** *** The first missing column stops the cards *)

Lemma kpi_values_missing fdf :
  NoDup (Pandas.columns fdf) →
  (∀ label s, label ∈ NUMERIC_COLUMNS → Pandas.getitem fdf label = inr s →
              Pandas.is_numeric_series s = true) →
  ¬ Forall (fun label => label ∈ Pandas.columns fdf) KPI_COLUMNS →
  ∃ label, label ∈ KPI_COLUMNS ∧ label ∉ Pandas.columns fdf
           ∧ kpi_values fdf = inl (KeyError label).
Proof.
  intros Hnd Hnum Hmiss. unfold kpi_values.
  destruct (decide ("category_id" ∈ Pandas.columns fdf)) as [H1 | H1].
  2: { exists "category_id". rewrite getitem_absent by done.
       split; [by_evaluation | done]. }
  destruct (getitem_unique _ _ Hnd H1) as [s1 ->]. cbn [bind].
  destruct (decide ("views" ∈ Pandas.columns fdf)) as [H2 | H2].
  2: { exists "views". rewrite getitem_absent by done.
       split; [by_evaluation | done]. }
  destruct (getitem_unique _ _ Hnd H2) as [s2 Hs2]. rewrite Hs2. cbn [bind].
  unfold Pandas.mean at 1. rewrite (Hnum "views" s2) by (done || by_evaluation).
  cbn [bind].
  destruct (decide ("Taux d'engagement (%)" ∈ Pandas.columns fdf)) as [H3 | H3].
  2: { exists "Taux d'engagement (%)". rewrite getitem_absent by done.
       split; [by_evaluation | done]. }
  destruct (getitem_unique _ _ Hnd H3) as [s3 Hs3]. rewrite Hs3. cbn [bind].
  unfold Pandas.mean at 1.
  rewrite (Hnum "Taux d'engagement (%)" s3) by (done || by_evaluation).
  cbn [bind].
  destruct (decide ("Engagement total" ∈ Pandas.columns fdf)) as [H4 | H4].
  2: { exists "Engagement total". rewrite getitem_absent by done.
       split; [by_evaluation | done]. }
  destruct Hmiss. unfold KPI_COLUMNS. repeat constructor; done.
Qed.

(** C10. A loaded frame with rows, without repeated label, that lacks
    one of the four KPI columns gets no card: the page stops on the
    [KeyError] of the first of the four that is missing. *)
Theorem pipeline_missing_kpi_column raw df sel :
  prepare' raw = inr df →
  NoDup (Pandas.columns df) →
  Pandas.empty df = false →
  ¬ Forall (fun label => label ∈ Pandas.columns df) KPI_COLUMNS →
  ∃ label, label ∈ KPI_COLUMNS ∧ label ∉ Pandas.columns df
           ∧ pipeline df sel = inl (KeyError label).
Proof.
  intros Hprep Hnd Hrows Hmiss. unfold pipeline. rewrite Hrows.
  destruct (filter_block_masks df sel Hnd) as [ms ->]. cbn [bind].
  destruct (kpi_values_missing (foldl Pandas.loc df ms)) as (label & Hl & Habs & Hk).
  - by rewrite columns_masks.
  - intros label s' Hl Hs'.
    apply getitem_masks_numeric in Hs' as (s & Hs & Hn).
    apply Hn. by apply (prepare_numeric raw df label).
  - by rewrite columns_masks.
  - exists label. rewrite columns_masks in Habs. split; [done |]. split; [done |].
    unfold kpi_block. by rewrite Hk.
Qed.

End KpiProperties.

Lemma pipeline_missing_kpi_column_witness :
  ∃ df label,
    prepare Iso8601.to_datetime (fun _ => None) no_total = inr df
    ∧ label ∈ KPI_COLUMNS ∧ label ∉ Pandas.columns df
    ∧ pipeline df no_selection = inl (KeyError label).
Proof.
  eexists.
  destruct (pipeline_missing_kpi_column Iso8601.to_datetime (fun _ => None)
              no_total _ no_selection ltac:(vm_compute; reflexivity))
    as (label & H1 & H2 & H3).
  - by_evaluation.
  - vm_compute; reflexivity.
  - by_evaluation.
  - exists label. split; [vm_compute; reflexivity |]. done.
Defined.

(** ** The reference scenario *)

(** The frame [load_data] makes of the reference table: the instants are
    read, and the year, the weekday and the hour are derived from them. *)
Example reference_table_loaded number_of_string :
  prepare Iso8601.to_datetime number_of_string reference_table
  = inr [ ("category_id", [Str "a"; Null; Str "c"]);
          ("views", [Int 100; Int 200; Null]);
          ("Taux d'engagement (%)", [Float 2; Float 4; Null]);
          ("Engagement total", [Int 5; Int 15; Int 0]);
          ("channel", [Str "X"; Str "Y"; Str "X"]);
          ("published_at",
           [Timestamp 1704103200000000000; Timestamp 1717236000000000000;
            Timestamp 1672567200000000000]);
          ("Année", [Int 2024; Int 2024; Int 2023]);
          ("Jour de la semaine", [Str "Lundi"; Str "Samedi"; Str "Dimanche"]);
          ("Heure", [Int 10; Int 10; Int 10]) ].
Proof. vm_compute; reflexivity. Qed.

(** C1, as stated, fails on its second half: rows 1 and 2 are both of
    2024, so the selection of that year keeps them both and the means and
    the total are those of the two rows, not those of row 2 alone. *)
Lemma scenario_year_2024 :
  (let* df := prepare Iso8601.to_datetime (fun _ => None) reference_table in
   let* fdf := filter_block df (only_year 2024) in
   Pandas.getitem fdf "views")
  = inr [Int 100; Int 200]
  ∧ scenario (fun _ => None) (only_year 2024) = inr (Cards "1" "150" "3,00 %" "20")
  ∧ scenario (fun _ => None) (only_year 2024) ≠ inr (Cards "1" "200" "4,00 %" "15").
Proof.
  split; [vm_compute; reflexivity |].
  split; [vm_compute; reflexivity |].
  vm_compute. discriminate.
Qed.

(** C1, amended. On the three rows of the reference table the cards read
    2, 150, 3,00 % and 20 with nothing selected, and 1, 150, 3,00 % and 20
    with the year 2024 selected. *)
Theorem scenario_cards number_of_string :
  scenario number_of_string no_selection = inr (Cards "2" "150" "3,00 %" "20")
  ∧ scenario number_of_string (only_year 2024) = inr (Cards "1" "150" "3,00 %" "20").
Proof. split; vm_compute; reflexivity. Qed.

(** * Further properties *)

(** ** Schema Normalizer: shape, dead keys and colliding spellings *)

(** X1. The rename keeps the number, the order and the data of the columns,
    and a label either stays or becomes the value of the entry whose key
    is the label in lower case. *)
Theorem normalize_columns_shape df :
  length (normalize_columns df) = length df
  ∧ (normalize_columns df).*2 = df.*2
  ∧ Forall2 (fun c c' => c' = c ∨ variant_of c c')
            (Pandas.columns df) (Pandas.columns (normalize_columns df)).
Proof.
  split; [apply normalize_columns_length |].
  split; [apply normalize_columns_data |].
  rewrite normalize_columns_labels.
  apply Forall2_fmap_r, Forall_Forall2_diag, Forall_forall. intros c _.
  unfold compose. cbn beta.
  destruct (final_rename (Pandas.columns df) !! c) as [v|] eqn:Hv; cbn [default].
  - right. by apply final_rename_lookup in Hv as [_ Hv].
  - by left.
Qed.

(** X2. In no frame is a column named "publishedAt" or "categoryId", in any
    letter case, renamed: their entries have a key with a capital, which
    the lower-cased index never holds. *)
Theorem normalize_columns_dead_keys df :
  Forall2 (fun c c' => Py.lower c ∈ ["publishedat"; "categoryid"] → c' = c)
          (Pandas.columns df) (Pandas.columns (normalize_columns df)).
Proof.
  rewrite normalize_columns_labels.
  apply Forall2_fmap_r, Forall_Forall2_diag, Forall_forall. intros c _ Hc.
  unfold compose in *. cbn beta in *.
  rewrite final_rename_not_variant; [done |].
  intros v Hv. unfold variant_of in Hv.
  assert (H : Forall (fun kv : string * string =>
                        kv.1 ∉ ["publishedat"; "categoryid"]) rename_map)
    by (apply (bool_decide_unpack _); vm_compute; exact I).
  rewrite Forall_forall in H. by apply (H _ Hv).
Qed.

(** The index holds, under a lower-cased name, the last column that has
    it. *)
Lemma lower_to_actual_last (l1 l2 : list string) (c : string) :
  (∀ d, d ∈ l2 → Py.lower d = Py.lower c → d = c) →
  lower_to_actual (l1 ++ c :: l2) !! Py.lower c = Some c.
Proof.
  induction l2 as [|x l2 IH] using rev_ind; intros Hlast.
  - rewrite lower_to_actual_snoc. apply lookup_insert_eq.
  - rewrite app_comm_cons, app_assoc, lower_to_actual_snoc, lookup_insert.
    case_decide as Hx.
    + f_equal. apply Hlast; [set_solver | done].
    + apply IH. intros d Hd. apply Hlast. set_solver.
Qed.

(** X3. Of the columns whose names differ by case only, the one that comes
    last is renamed and the others keep their names. *)
Theorem normalize_columns_last_spelling df (l1 l2 : list string) (c v : string) :
  Pandas.columns df = (l1 ++ c :: l2)%list →
  (∀ d, d ∈ l2 → Py.lower d = Py.lower c → d = c) →
  variant_of c v →
  Forall2 (fun d d' => (d = c → d' = v)
                       ∧ (Py.lower d = Py.lower c → d ≠ c → d' = d))
          (Pandas.columns df) (Pandas.columns (normalize_columns df)).
Proof.
  intros Hcols Hlast Hv. rewrite normalize_columns_labels.
  apply Forall2_fmap_r, Forall_Forall2_diag, Forall_forall. intros d _.
  unfold compose. cbn beta.
  assert (Hidx : lower_to_actual (Pandas.columns df) !! Py.lower c = Some c)
    by (rewrite Hcols; by apply lower_to_actual_last).
  split.
  - intros ->.
    assert (H : final_rename (Pandas.columns df) !! c = Some v)
      by (by apply final_rename_lookup).
    by rewrite H.
  - intros Hl Hne.
    destruct (final_rename (Pandas.columns df) !! d) as [w|] eqn:Hw; [| done].
    apply final_rename_lookup in Hw as [Hd _]. rewrite Hl, Hidx in Hd. congruence.
Qed.

Lemma normalize_columns_last_spelling_witness :
  Forall2 (fun d d' => (d = "VIEWS" → d' = "views")
                       ∧ (Py.lower d = Py.lower "VIEWS" → d ≠ "VIEWS" → d' = d))
          (Pandas.columns two_spellings)
          (Pandas.columns (normalize_columns two_spellings)).
Proof.
  apply (normalize_columns_last_spelling two_spellings ["Views"] [] "VIEWS" "views").
  - vm_compute; reflexivity.
  - intros d Hd. by apply elem_of_nil in Hd.
  - by_evaluation.
Defined.

(** ** Filter Engine: the whole block *)

Section FilterBlock.

Implicit Types (df fdf : DataFrame) (fs : list (string * list cell)).

Lemma select_zip_with_andb (m a b : list bool) :
  zip_with andb (Pandas.select m a) (Pandas.select m b)
  = Pandas.select m (zip_with andb a b).
Proof.
  revert a b. induction m as [|x m IH]; intros [|y a] [|z b]; simpl; try done.
  - by destruct x; simpl; rewrite ?select_nil_r; destruct (Pandas.select m a).
  - destruct x; simpl; by rewrite IH.
Qed.

Lemma zip_with_andb_diag (m : list bool) : zip_with andb m m = m.
Proof. induction m as [|x m IH]; simpl; [done |]. by rewrite IH, andb_diag. Qed.

Lemma mask_and_select m a b :
  mask_and (Pandas.select m <$> a) (Pandas.select m <$> b)
  = Pandas.select m <$> mask_and a b.
Proof. destruct a, b; simpl; try done. by rewrite select_zip_with_andb. Qed.

(** A slicer on a frame already under a mask adds its own mask, as read on
    the frame without mask. *)
Lemma slicer_apply_mask label values df a :
  slicer label values (apply_mask a df)
  = let* b := facet_mask label values df in inr (apply_mask (mask_and a b) df).
Proof.
  rewrite slicer_facet_mask. destruct a as [ma |]; simpl.
  - rewrite facet_mask_loc.
    destruct (facet_mask label values df) as [e | [mb |]]; simpl; try done.
    by rewrite loc_loc.
  - by destruct (facet_mask label values df) as [e | [mb |]].
Qed.

Lemma slicers_inl fs e :
  foldl (fun r (f : string * list cell) => let* fdf := r in slicer f.1 f.2 fdf)
        (inl e) fs = inl e.
Proof. induction fs as [|f fs IH]; [done | apply IH]. Qed.

Lemma selection_mask_inl fs df e :
  foldl (fun r (f : string * list cell) =>
           let* a := r in let* b := facet_mask f.1 f.2 df in inr (mask_and a b))
        (inl e) fs = inl e.
Proof. induction fs as [|f fs IH]; [done | apply IH]. Qed.

Lemma slicers_selection_mask fs df a :
  foldl (fun r (f : string * list cell) => let* fdf := r in slicer f.1 f.2 fdf)
        (inr (apply_mask a df)) fs
  = let* m := foldl (fun r (f : string * list cell) =>
                       let* a := r in
                       let* b := facet_mask f.1 f.2 df in inr (mask_and a b))
                    (inr a) fs in
    inr (apply_mask m df).
Proof.
  revert a. induction fs as [|[l v] fs IH]; intros a; [done |].
  cbn [foldl bind fst snd]. rewrite slicer_apply_mask.
  destruct (facet_mask l v df) as [e | b]; cbn [bind].
  - by rewrite slicers_inl, selection_mask_inl.
  - apply IH.
Qed.

Lemma filter_block_filter_all df sel : filter_block df sel = filter_all df sel.
Proof.
  unfold filter_all, selection_mask.
  rewrite <- (slicers_selection_mask (facets sel) df None).
  unfold filter_block, facets. cbn [foldl apply_mask fst snd bind].
  destruct (slicer "Année" _ df) as [e | df1]; cbn [bind]; [done |].
  destruct (slicer "cats.name" _ df1) as [e | df2]; cbn [bind]; [done |].
  destruct (slicer "channel" _ df2) as [e | df3]; cbn [bind]; [done |].
  by destruct (slicer "Jour de la semaine" _ df3) as [e | df4].
Qed.

(** X15. The filter block, facet after facet, is the one-pass filter by the
    conjunction of the five facets as they read on the unfiltered frame:
    the same frame, or the same exception. *)
Theorem filter_block_one_pass df sel : filter_block df sel = filter_all df sel.
Proof. apply filter_block_filter_all. Qed.

(** A facet with nothing selected, or whose column the frame lacks,
    restricts nothing. *)
Lemma facet_mask_inactive label values df :
  values = [] ∨ label ∉ Pandas.columns df → facet_mask label values df = inr None.
Proof.
  intros [-> | H]; unfold facet_mask; [done |].
  apply has_column_false in H. rewrite H. by rewrite andb_false_r.
Qed.

(** X16. When every facet has no value selected or names a column that
    the frame lacks, the block returns the frame as it is. *)
Theorem filter_block_unrestricted df sel :
  Forall (fun f : string * list cell => f.2 = [] ∨ f.1 ∉ Pandas.columns df)
         (facets sel) →
  filter_block df sel = inr df.
Proof.
  intros H. rewrite filter_block_filter_all. unfold filter_all, selection_mask, facets in *.
  repeat (apply Forall_cons in H as [?%facet_mask_inactive H]).
  cbn [foldl bind fst snd] in *.
  repeat match goal with Hm : facet_mask _ _ _ = _ |- _ => rewrite Hm; clear Hm end.
  reflexivity.
Qed.

Lemma filter_block_unrestricted_witness :
  filter_block reference_table absent_facets = inr reference_table.
Proof.
  apply filter_block_unrestricted. by_evaluation.
Defined.




Lemma selection_mask_loc fs df m a :
  foldl (fun r (f : string * list cell) =>
           let* a := r in
           let* b := facet_mask f.1 f.2 (Pandas.loc df m) in inr (mask_and a b))
        (inr (Pandas.select m <$> a)) fs
  = let* o := foldl (fun r (f : string * list cell) =>
                       let* a := r in
                       let* b := facet_mask f.1 f.2 df in inr (mask_and a b))
                    (inr a) fs in
    inr (Pandas.select m <$> o).
Proof.
  revert a. induction fs as [|[l v] fs IH]; intros a; [done |].
  cbn [foldl bind fst snd]. rewrite facet_mask_loc.
  destruct (facet_mask l v df) as [e | b]; cbn [bind].
  - by rewrite !selection_mask_inl.
  - rewrite mask_and_select. apply IH.
Qed.

Lemma selection_mask_of_loc fs df m :
  selection_mask fs (Pandas.loc df m)
  = let* o := selection_mask fs df in inr (Pandas.select m <$> o).
Proof. apply (selection_mask_loc fs df m None). Qed.

(** X18. Filtering what the filter returned, with the same selection, changes
    nothing. *)
Theorem filter_block_idempotent df sel fdf :
  filter_block df sel = inr fdf → filter_block fdf sel = inr fdf.
Proof.
  rewrite !filter_block_filter_all. unfold filter_all.
  destruct (selection_mask (facets sel) df) as [e | [m |]] eqn:Hm; simpl;
    intros [= <-].
  - rewrite selection_mask_of_loc, Hm. simpl.
    by rewrite loc_loc, zip_with_andb_diag.
  - by rewrite Hm.
Qed.

Lemma filter_block_idempotent_witness :
  ∃ fdf, filter_block reference_table (only_channel "X") = inr fdf
         ∧ filter_block fdf (only_channel "X") = inr fdf.
Proof.
  eexists. split; [vm_compute; reflexivity |].
  apply (filter_block_idempotent reference_table (only_channel "X")).
  vm_compute; reflexivity.
Defined.

(** *** What is kept satisfies the selection *)

Lemma select_andb_l (a b : list bool) :
  Forall (fun x => x = true) (Pandas.select (zip_with andb a b) a).
Proof.
  revert b. induction a as [|x a IH]; intros [|y b]; simpl; try constructor.
  destruct x, y; simpl; try apply IH. constructor; [done | apply IH].
Qed.

Lemma select_andb_r (a b : list bool) :
  Forall (fun x => x = true) (Pandas.select (zip_with andb a b) b).
Proof. rewrite zip_with_andb_comm. apply select_andb_l. Qed.

Lemma select_andb_weaken (a b x : list bool) :
  Forall (fun x => x = true) (Pandas.select a x) →
  Forall (fun x => x = true) (Pandas.select (zip_with andb a b) x).
Proof.
  revert b x. induction a as [|u a IH]; intros [|v b] [|w x]; simpl; try constructor.
  destruct u; simpl.
  - intros [Hw Hx]%Forall_cons. destruct v; [constructor; [done |] |]; by apply IH.
  - apply IH.
Qed.

Lemma selection_mask_implies fs df a o :
  foldl (fun r (f : string * list cell) =>
           let* a := r in
           let* b := facet_mask f.1 f.2 df in inr (mask_and a b))
        (inr a) fs = inr o →
  (∀ A x, a = Some A → Forall (fun b => b = true) (Pandas.select A x) →
          ∃ M, o = Some M ∧ Forall (fun b => b = true) (Pandas.select M x))
  ∧ (∀ f mf, f ∈ fs → facet_mask f.1 f.2 df = inr (Some mf) →
             ∃ M, o = Some M ∧ Forall (fun b => b = true) (Pandas.select M mf)).
Proof.
  revert a. induction fs as [|[l v] fs IH]; intros a H.
  - simpl in H. injection H as <-. split.
    + intros A x -> HA. by exists A.
    + intros f mf Hf. by apply elem_of_nil in Hf.
  - cbn [foldl bind fst snd] in H.
    destruct (facet_mask l v df) as [e | b] eqn:Hb; cbn [bind] in H.
    { by rewrite selection_mask_inl in H. }
    destruct (IH _ H) as [Hacc Hin]. split.
    + intros A x -> HA. destruct b as [mb |]; simpl in Hacc.
      * apply (Hacc _ x eq_refl). by apply select_andb_weaken.
      * by apply (Hacc _ x eq_refl).
    + intros f mf [-> | Hf]%elem_of_cons Hmf; [| by apply (Hin f)].
      cbn [fst snd] in Hmf. rewrite Hb in Hmf. injection Hmf as ->.
      destruct a as [A |]; simpl in Hacc.
      * apply (Hacc _ mf eq_refl), select_andb_r.
      * apply (Hacc _ mf eq_refl).
        rewrite <- (zip_with_andb_diag mf) at 1. apply select_andb_l.
Qed.

(** X19. After the filter, every cell left in the column of a facet for which
    values were selected is one of these values. *)
Theorem filter_block_sound df sel fdf label values s :
  filter_block df sel = inr fdf →
  (label, values) ∈ facets sel → values ≠ [] →
  Pandas.getitem fdf label = inr s →
  Forall (fun c => existsb (Pandas.cell_eqb c) values = true) s.
Proof.
  rewrite filter_block_filter_all. unfold filter_all.
  destruct (selection_mask (facets sel) df) as [e | o] eqn:Ho; simpl;
    intros [= <-] Hf Hv Hs.
  assert (Hcol : Pandas.has_column df label = true).
  { apply has_column_true. apply getitem_present in Hs.
    replace (Pandas.columns df) with (Pandas.columns (apply_mask o df))
      by (destruct o; [apply columns_loc | done]).
    by apply (list_elem_of_fmap_2 fst _ (label, s)). }
  assert (Hs0 : ∃ s0, Pandas.getitem df label = inr s0).
  { destruct o as [m |]; simpl in Hs; [| by exists s].
    rewrite getitem_loc in Hs. destruct (Pandas.getitem df label) as [| s0]; [done |].
    by exists s0. }
  destruct Hs0 as [s0 Hs0].
  assert (Hm : facet_mask label values df = inr (Some (Pandas.isin s0 values))).
  { unfold facet_mask. rewrite Hcol, Hs0.
    by rewrite (bool_decide_eq_false_2 _ Hv). }
  destruct (selection_mask_implies _ _ _ _ Ho) as [_ Hin].
  destruct (Hin (label, values) _ Hf Hm) as (M & -> & HM).
  simpl in Hs. rewrite getitem_loc, Hs0 in Hs. simpl in Hs. injection Hs as <-.
  rewrite <- isin_select in HM. unfold Pandas.isin in HM.
  by rewrite map_fmap, Forall_fmap in HM.
Qed.

Lemma filter_block_sound_witness :
  ∃ fdf s,
    filter_block reference_table (only_channel "X") = inr fdf
    ∧ Pandas.getitem fdf "channel" = inr s
    ∧ Forall (fun c => existsb (Pandas.cell_eqb c) [Str "X"] = true) s.
Proof.
  eexists _, _. split; [vm_compute; reflexivity |].
  split; [vm_compute; reflexivity |].
  eapply (filter_block_sound reference_table (only_channel "X") _ "channel" [Str "X"]).
  - vm_compute; reflexivity.
  - unfold facets, only_channel. cbn. set_solver.
  - done.
  - vm_compute; reflexivity.
Defined.

End FilterBlock.

(** ** Loader: when it fails, and what it returns *)

Section LoaderFurther.

Context (to_datetime : list cell → list (option Z)).
Context (number_of_string : string → option (Z + float)).

Local Abbreviation timestamps' := (timestamps to_datetime).
Local Abbreviation to_numeric' := (to_numeric number_of_string).
Local Abbreviation coerce' := (coerce number_of_string).
Local Abbreviation prepare' := (prepare to_datetime number_of_string).

Implicit Types (df : DataFrame) (label : string) (s : Series).

(** *** Lookups and the number of columns under a label *)







(** *** The three phases of [prepare] *)

Lemma derive_columns target f df df' :
  derive target f df = inr df' →
  Pandas.columns df'
  = (Pandas.columns df ++ if Pandas.has_column df target then [] else [target])%list.
Proof.
  intros [[Hh ->] | (Hh & p & _ & ->)]%derive_inr; rewrite Hh.
  - by rewrite app_nil_r.
  - by rewrite columns_setitem, Hh.
Qed.

Lemma derive_total target f df p :
  Pandas.getitem df "published_at" = inr p → ∃ df', derive target f df = inr df'.
Proof.
  intros Hp. unfold derive, assign.
  destruct (Pandas.has_column df target); [by eexists |].
  rewrite Hp. by eexists.
Qed.

(** The derivations of a frame whose "published_at" is a column: they
    cannot fail, and they append the derived labels the frame lacks. *)
Lemma derive_all df p :
  Pandas.getitem df "published_at" = inr p →
  ∃ df4,
    (let* df2 := derive "Année" Pandas.dt_year df in
     let* df3 := derive "Jour de la semaine"
                   (fun s => Pandas.map_dict fr_weekdays (Pandas.dt_weekday s)) df2 in
     derive "Heure" Pandas.dt_hour df3) = inr df4
    ∧ Pandas.columns df4
      = (Pandas.columns df
         ++ filter (fun t => t ∉ Pandas.columns df) DERIVED_COLUMNS)%list
    ∧ Pandas.getitem df4 "published_at" = inr p
    ∧ ∀ t f, (t, f) ∈ derivations → Pandas.has_column df t = false →
             Pandas.getitem df4 t = inr (f p).
Proof.
  intros Hp.
  destruct (derive_total "Année" Pandas.dt_year df p Hp) as [df2 E2].
  assert (Hp2 : Pandas.getitem df2 "published_at" = inr p)
    by (by rewrite (derive_getitem_other _ _ _ _ _ E2)).
  destruct (derive_total "Jour de la semaine"
              (fun s => Pandas.map_dict fr_weekdays (Pandas.dt_weekday s)) df2 p Hp2)
    as [df3 E3].
  assert (Hp3 : Pandas.getitem df3 "published_at" = inr p)
    by (by rewrite (derive_getitem_other _ _ _ _ _ E3)).
  destruct (derive_total "Heure" Pandas.dt_hour df3 p Hp3) as [df4 E4].
  exists df4. rewrite E2. cbn [bind]. rewrite E3. cbn [bind].
  split; [done |]. split; [| split].
  - rewrite (derive_columns _ _ _ _ E4), (derive_columns _ _ _ _ E3),
      (derive_columns _ _ _ _ E2).
    rewrite (derive_has_column_other _ _ _ _ "Heure" E3) by done.
    rewrite (derive_has_column_other _ _ _ _ "Heure" E2) by done.
    rewrite (derive_has_column_other _ _ _ _ "Jour de la semaine" E2) by done.
    rewrite <- !app_assoc. f_equal. unfold DERIVED_COLUMNS.
    rewrite !filter_cons, filter_nil.
    destruct (Pandas.has_column df "Année") eqn:H1;
      destruct (Pandas.has_column df "Jour de la semaine") eqn:H2;
      destruct (Pandas.has_column df "Heure") eqn:H3;
      repeat match goal with
             | H : Pandas.has_column _ _ = true |- _ => apply has_column_true in H
             | H : Pandas.has_column _ _ = false |- _ => apply has_column_false in H
             end;
      repeat case_decide; done.
  - by rewrite (derive_getitem_other _ _ _ _ _ E4).
  - intros t f Ht Habs. apply list_elem_of_In in Ht. simpl in Ht.
    destruct Ht as [[= <- <-] | [[= <- <-] | [[= <- <-] | []]]].
    + rewrite (derive_getitem_other _ _ _ _ _ E4) by done.
      rewrite (derive_getitem_other _ _ _ _ _ E3) by done.
      by apply (derive_getitem_target _ _ _ _ p E2).
    + rewrite (derive_getitem_other _ _ _ _ _ E4) by done.
      apply (derive_getitem_target _ _ _ _ p E3); [| done].
      by rewrite (derive_has_column_other _ _ _ _ _ E2).
    + apply (derive_getitem_target _ _ _ _ p E4); [| done].
      rewrite (derive_has_column_other _ _ _ _ _ E3) by done.
      by rewrite (derive_has_column_other _ _ _ _ _ E2).
Qed.



(** What a successful [prepare] returns, read on the renamed frame. *)
Lemma prepare_inv raw df :
  prepare' raw = inr df →
  (Pandas.has_column (normalize_columns raw) "published_at" = false
   ∧ Pandas.columns df = Pandas.columns (normalize_columns raw)
   ∧ ∀ l, l ∉ NUMERIC_COLUMNS →
          Pandas.getitem df l = Pandas.getitem (normalize_columns raw) l)
  ∨ (∃ s0,
       Pandas.getitem (normalize_columns raw) "published_at" = inr s0
       ∧ Pandas.columns df
         = (Pandas.columns (normalize_columns raw)
            ++ filter (fun t => t ∉ Pandas.columns (normalize_columns raw))
                      DERIVED_COLUMNS)%list
       ∧ Pandas.getitem df "published_at" = inr (timestamps' s0)
       ∧ ∀ t f, (t, f) ∈ derivations →
                Pandas.has_column (normalize_columns raw) t = false →
                Pandas.getitem df t = inr (f (timestamps' s0))).
Proof.
  unfold prepare. set (df0 := normalize_columns raw). intros H.
  destruct (Pandas.has_column df0 "published_at") eqn:Hhas.
  - right. bind_inv H df1 E1. apply assign_inr in E1 as (s0 & Hs0 & ->).
    set (df1 := Pandas.setitem df0 "published_at" (timestamps' s0)) in *.
    assert (Hh1 : Pandas.has_column df1 "published_at" = true)
      by (unfold df1; by rewrite has_column_setitem, Hhas).
    assert (Hc1 : Pandas.columns df1 = Pandas.columns df0)
      by (unfold df1; by rewrite columns_setitem, Hhas).
    assert (Hp1 : Pandas.getitem df1 "published_at" = inr (timestamps' s0))
      by (unfold df1; by apply (getitem_setitem_same _ _ _ s0)).
    rewrite Hh1 in H.
    destruct (derive_all df1 _ Hp1) as (df4 & E4 & Hc4 & Hp4 & Hd4).
    rewrite E4 in H. cbn [bind] in H.
    apply coerce_all_inr in H as (df' & [= <-] & Hcols & Hkeep).
    exists s0. split; [done |]. split; [by rewrite Hcols, Hc4, Hc1 |].
    split; [by rewrite Hkeep by by_evaluation |].
    intros t f Ht Habs.
    rewrite Hkeep.
    + apply Hd4; [done |]. unfold df1.
      rewrite has_column_setitem, Habs. simpl.
      apply bool_decide_eq_false_2. intros ->. congruence.
    + apply list_elem_of_In in Ht. simpl in Ht.
      destruct Ht as [[= <- _] | [[= <- _] | [[= <- _] | []]]]; by_evaluation.
  - left. cbn [bind] in H. rewrite Hhas in H. cbn [bind] in H.
    apply coerce_all_inr in H as (df' & [= <-] & Hcols & Hkeep). by repeat split.
Qed.

(** X5. [prepare] keeps the columns of the renamed frame in their order and
    appends, when "published_at" is among them, the derived labels the
    frame lacks, in the order year, weekday, hour; it adds nothing else
    and drops nothing. *)
Theorem prepare_columns raw df :
  prepare' raw = inr df →
  Pandas.columns df
  = (Pandas.columns (normalize_columns raw)
     ++ if Pandas.has_column (normalize_columns raw) "published_at"
        then filter (fun t => t ∉ Pandas.columns (normalize_columns raw))
                    DERIVED_COLUMNS
        else [])%list.
Proof.
  intros [(Hh & Hc & _) | (s0 & Hs0 & Hc & _)]%prepare_inv.
  - by rewrite Hh, app_nil_r.
  - assert (Hh : Pandas.has_column (normalize_columns raw) "published_at" = true).
    { apply has_column_true. apply getitem_present in Hs0.
      by apply (list_elem_of_fmap_2 fst _ ("published_at", s0)). }
    by rewrite Hh.
Qed.

(** X6. After [prepare], "published_at" holds instants and missing values
    only. *)
Theorem prepare_published_at raw df pub :
  prepare' raw = inr df →
  Pandas.getitem df "published_at" = inr pub →
  Forall (fun c => c = Null ∨ ∃ ns, c = Timestamp ns) pub.
Proof.
  intros [(Hh & _ & Hk) | (s0 & _ & _ & Hp & _)]%prepare_inv Hpub.
  - rewrite Hk in Hpub by by_evaluation.
    apply has_column_false in Hh. by rewrite getitem_absent in Hpub.
  - rewrite Hp in Hpub. injection Hpub as <-. unfold timestamps.
    rewrite map_fmap, Forall_fmap. apply Forall_forall.
    intros [ns |] _; simpl; [right; by exists ns | by left].
Qed.




(** *** Rows *)

Lemma setitem_rectangular n df label s :
  rectangular n df → length s = n → rectangular n (Pandas.setitem df label s).
Proof.
  unfold rectangular, Pandas.setitem. intros Hdf Hs.
  destruct (Pandas.has_column df label).
  - rewrite map_fmap, Forall_fmap. eapply Forall_impl; [exact Hdf |].
    intros [l s'] Hl. simpl in *. by case_bool_decide.
  - apply Forall_app. split; [done |]. by constructor.
Qed.

Lemma assign_rectangular n df target source f df' :
  (∀ s, length (f s) = length s) →
  rectangular n df → assign df target source f = inr df' → rectangular n df'.
Proof.
  intros Hf Hdf (s & Hs & ->)%assign_inr.
  apply setitem_rectangular; [done |]. rewrite Hf.
  apply getitem_present in Hs. unfold rectangular in Hdf.
  rewrite Forall_forall in Hdf. apply (Hdf _ Hs).
Qed.

Lemma derive_rectangular n target f df df' :
  (∀ s, length (f s) = length s) →
  rectangular n df → derive target f df = inr df' → rectangular n df'.
Proof.
  intros Hf Hdf. unfold derive. destruct (Pandas.has_column df target).
  - by intros [= <-].
  - by apply assign_rectangular.
Qed.

Lemma coerce_all_rectangular n (cols : list string) r df :
  (∀ df0, r = inr df0 → rectangular n df0) →
  foldl (fun r col => let* df := r in coerce' df col) r cols = inr df →
  rectangular n df.
Proof.
  revert r. induction cols as [|c cols IH]; intros r Hr H; simpl in H.
  - by apply Hr.
  - eapply IH; [| exact H]. intros df1 E.
    destruct r as [e | df0]; [done |]. cbn [bind] in E.
    unfold coerce in E. destruct (Pandas.has_column df0 c).
    + eapply assign_rectangular; [| by apply Hr | exact E].
      intros s. unfold to_numeric. apply length_map.
    + injection E as <-. by apply Hr.
Qed.

Lemma prepare_keeps_rows raw df n :
  (∀ s, length (to_datetime s) = length s) →
  rectangular n raw → prepare' raw = inr df → rectangular n df.
Proof.
  intros Hlen Hraw H. unfold prepare in H.
  assert (H0 : rectangular n (normalize_columns raw)).
  { unfold rectangular, normalize_columns, Pandas.rename.
    rewrite map_fmap, Forall_fmap. eapply Forall_impl; [exact Hraw |]. by intros [l s]. }
  set (df0 := normalize_columns raw) in *.
  bind_inv H df1 E1. bind_inv H df4 E4.
  assert (H1 : rectangular n df1).
  { destruct (Pandas.has_column df0 "published_at"); [| by injection E1 as <-].
    eapply assign_rectangular; [| exact H0 | exact E1].
    intros s. unfold timestamps. by rewrite length_map. }
  assert (Hfield : ∀ g s, length (Pandas.dt_field g s) = length s)
    by (intros; apply length_map).
  assert (H4 : rectangular n df4).
  { destruct (Pandas.has_column df1 "published_at"); [| by injection E4 as <-].
    bind_inv E4 df2 E2. bind_inv E4 df3 E3.
    assert (H2 : rectangular n df2)
      by (by apply (derive_rectangular n _ _ _ _ (Hfield _) H1 E2)).
    assert (H3 : rectangular n df3).
    { eapply derive_rectangular; [| exact H2 | exact E3].
      intros s. unfold Pandas.map_dict. rewrite length_map. apply Hfield. }
    by apply (derive_rectangular n _ _ _ _ (Hfield _) H3 E4). }
  eapply coerce_all_rectangular; [| exact H].
  by intros ? [= <-].
Qed.

(** X10. Loading keeps the rows: when every column of the file has [n] rows,
    so has every column of the loaded frame, the derived ones included.
    ([pd.to_datetime] returns one entry for each it is given.) *)
Theorem prepare_rectangular raw df n :
  (∀ s, length (to_datetime s) = length s) →
  rectangular n raw → prepare' raw = inr df → rectangular n df.
Proof. apply prepare_keeps_rows. Qed.

(** X9. In the loaded frame the three columns that the loader coerces hold
    numbers or missing values, whatever the file held: the aggregates of
    the KPI block find nothing else there. *)
Theorem coerced_columns_numeric raw df col s :
  prepare' raw = inr df → col ∈ NUMERIC_COLUMNS →
  Pandas.getitem df col = inr s → Pandas.is_numeric_series s = true.
Proof. apply prepare_numeric. Qed.

End LoaderFurther.

Lemma prepare_columns_witness :
  ∃ df, prepare Iso8601.to_datetime (fun _ => None) sparse_dates = inr df
        ∧ Pandas.columns df
          = ["published_at"; "Année"; "Jour de la semaine"; "Heure"].
Proof.
  eexists. split; [vm_compute; reflexivity |].
  rewrite (prepare_columns Iso8601.to_datetime (fun _ => None) sparse_dates _
             ltac:(vm_compute; reflexivity)).
  vm_compute; reflexivity.
Defined.

Lemma prepare_published_at_witness :
  ∃ df pub,
    prepare Iso8601.to_datetime (fun _ => None) sparse_dates = inr df
    ∧ Pandas.getitem df "published_at" = inr pub
    ∧ Forall (fun c => c = Null ∨ ∃ ns, c = Timestamp ns) pub.
Proof.
  eexists _, _. split; [vm_compute; reflexivity |].
  split; [vm_compute; reflexivity |].
  eapply (prepare_published_at Iso8601.to_datetime (fun _ => None) sparse_dates);
    vm_compute; reflexivity.
Defined.


Lemma prepare_rectangular_witness :
  ∃ df, prepare Iso8601.to_datetime (fun _ => None) reference_table = inr df
        ∧ rectangular 3 df.
Proof.
  eexists. split; [vm_compute; reflexivity |].
  apply (prepare_rectangular Iso8601.to_datetime (fun _ => None) reference_table).
  - intros s. apply length_map.
  - unfold rectangular. apply (bool_decide_unpack _). vm_compute. exact I.
  - vm_compute; reflexivity.
Defined.

Lemma coerced_columns_numeric_witness :
  ∃ df s, prepare Iso8601.to_datetime (fun _ => None) no_total = inr df
          ∧ Pandas.getitem df "views" = inr s
          ∧ Pandas.is_numeric_series s = true.
Proof.
  eexists _, _. split; [vm_compute; reflexivity |].
  split; [vm_compute; reflexivity |].
  eapply (coerced_columns_numeric Iso8601.to_datetime (fun _ => None) no_total _ "views").
  - vm_compute; reflexivity.
  - by_evaluation.
  - vm_compute; reflexivity.
Defined.

Lemma supplied_column_kept_witness :
  ∃ df, prepare Iso8601.to_datetime (fun _ => None)
          [ ("published_at", [Null]); ("Année", [Int 2020]) ] = inr df
        ∧ Pandas.getitem df "Année" = inr [Int 2020].
Proof.
  eexists. split; [vm_compute; reflexivity |].
  rewrite (supplied_column_kept Iso8601.to_datetime (fun _ => None)
             [ ("published_at", [Null]); ("Année", [Int 2020]) ] _ "Année").
  - vm_compute; reflexivity.
  - vm_compute; reflexivity.
  - by_evaluation.
  - vm_compute; reflexivity.
Defined.

(** ** KPI Aggregator: missing values and well-formed frames *)

Section KpiFurther.

Context (to_datetime : list cell → list (option Z)).
Context (number_of_string : string → option (Z + float)).

Local Abbreviation prepare' := (prepare to_datetime number_of_string).

Implicit Types (df fdf : DataFrame) (label : string) (s : Series).

Lemma missing_is_numeric s :
  Forall (fun c => Pandas.isna c = true) s →
  Pandas.is_numeric_series s = true ∧ Pandas.float_values s = [].
Proof.
  unfold Pandas.is_numeric_series, Pandas.float_values.
  induction 1 as [|c s Hc _ [IH1 IH2]]; [done |].
  cbn [forallb omap list_omap]. rewrite IH1, IH2.
  destruct c; simpl in Hc; try done. by rewrite Hc.
Qed.

(** X20. A column in which every value is missing averages to NaN and sums to
    zero: its mean is written "—" by either formatter, its total "0". *)
Theorem aggregates_all_missing label s :
  Forall (fun c => Pandas.isna c = true) s →
  ∃ m t, Pandas.mean label s = inr m ∧ Pandas.sum label s = inr t
         ∧ _fr_int m = "—" ∧ _fr_float m 2 = "—" ∧ _fr_int t = "0".
Proof.
  intros Hs. destruct (missing_is_numeric s Hs) as [Hn Hv].
  unfold Pandas.mean, Pandas.sum. rewrite Hn, Hv.
  destruct (Pandas.is_int_series s) eqn:Hi.
  - destruct s as [|c s]; [| by destruct c; inversion Hs; subst].
    eexists _, _. repeat split; vm_compute; reflexivity.
  - eexists _, _. repeat split; vm_compute; reflexivity.
Qed.

Lemma aggregates_all_missing_witness :
  ∃ m t, Pandas.mean "views" [Null; Float nan] = inr m
         ∧ Pandas.sum "views" [Null; Float nan] = inr t
         ∧ _fr_int m = "—" ∧ _fr_float m 2 = "—" ∧ _fr_int t = "0".
Proof.
  apply aggregates_all_missing. repeat constructor.
Defined.



(** X22. A file with a header and no row gives the message for an empty frame,
    not an exception, also when it lacks the KPI columns. *)
Theorem pipeline_awaiting_without_rows raw df sel :
  (∀ s, length (to_datetime s) = length s) →
  zero_rows raw → prepare' raw = inr df →
  pipeline df sel = inr Awaiting.
Proof.
  intros Hlen Hzero Hprep.
  assert (Hraw : rectangular 0 raw).
  { unfold rectangular, zero_rows in *. eapply Forall_impl; [exact Hzero |].
    by intros [l s] ->. }
  pose proof (prepare_keeps_rows to_datetime number_of_string raw df 0 Hlen Hraw Hprep)
    as Hdf.
  unfold pipeline. destruct df as [|[l s] df]; [done |].
  apply Forall_cons in Hdf as [Hs _]. simpl in Hs.
  unfold Pandas.empty, Pandas.nrows. simpl. by rewrite Hs.
Qed.

End KpiFurther.


Lemma pipeline_awaiting_without_rows_witness :
  ∃ df, prepare Iso8601.to_datetime (fun _ => None)
          [ ("published_at", []); ("note", []) ] = inr df
        ∧ pipeline df no_selection = inr Awaiting.
Proof.
  eexists. split; [vm_compute; reflexivity |].
  apply (pipeline_awaiting_without_rows Iso8601.to_datetime (fun _ => None)
           [ ("published_at", []); ("note", []) ]).
  - intros s. apply length_map.
  - by_evaluation.
  - vm_compute; reflexivity.
Defined.

(** ** Formatter: separators *)

Section FormatterFurther.

Local Abbreviation chars := list_ascii_of_string.

Implicit Types (s t : string) (a b c : ascii) (n : Py.scalar) (k : Z).

Lemma chars_app s t : chars (s +:+ t) = (chars s ++ chars t)%list.
Proof. induction s as [|c s IH]; simpl; [done | by rewrite IH]. Qed.

Lemma chars_replace a b s :
  chars (Py.replace a b s) = (fun c => if Ascii.eqb c a then b else c) <$> chars s.
Proof. induction s as [|c s IH]; simpl; [done | by rewrite IH]. Qed.

Lemma length_chars s : length (chars s) = String.length s.
Proof. induction s as [|c s IH]; simpl; [done | by rewrite IH]. Qed.

Lemma replace_absent a b s : a ≠ b → a ∉ chars (Py.replace a b s).
Proof.
  intros Hab. rewrite chars_replace. intros (c & Hc & _)%list_elem_of_fmap.
  destruct (Ascii.eqb_spec c a); congruence.
Qed.

Lemma replace_keeps_absent a b c s :
  c ≠ b → c ∉ chars s → c ∉ chars (Py.replace a b s).
Proof.
  intros Hcb Hs. rewrite chars_replace. intros (d & Hd & Hin)%list_elem_of_fmap.
  destruct (Ascii.eqb_spec d a); congruence.
Qed.

(** X23. The French formatters leave no English separator behind: [_fr_int]
    writes no comma, [_fr_float] no period and no placeholder. *)
Theorem formatters_french_separators n (decimals : Z) :
  (","%char ∉ chars (_fr_int n))
  ∧ ("."%char ∉ chars (_fr_float n decimals))
  ∧ ("X"%char ∉ chars (_fr_float n decimals)).
Proof.
  assert (Hdash : ∀ c, c ∈ [","; "."; "X"]%char → c ∉ chars dash).
  { intros c Hc. apply (bool_decide_unpack _).
    repeat (apply elem_of_cons in Hc as [-> | Hc]; [vm_compute; exact I |]).
    by apply elem_of_nil in Hc. }
  unfold _fr_int, _fr_float. repeat split.
  - destruct (Py.isna n); [apply Hdash; set_solver |].
    destruct (Py.to_float n) as [x|]; [| apply Hdash; set_solver].
    destruct (Py.round x) as [n_int|]; [| apply Hdash; set_solver].
    by apply replace_absent.
  - destruct (Py.isna n); [apply Hdash; set_solver |].
    destruct (Py.to_float n) as [x|]; [| apply Hdash; set_solver].
    destruct (Py.format_float_grouped decimals x) as [fmt|]; [| apply Hdash; set_solver].
    apply replace_keeps_absent; [done |]. by apply replace_absent.
  - destruct (Py.isna n); [apply Hdash; set_solver |].
    destruct (Py.to_float n) as [x|]; [| apply Hdash; set_solver].
    destruct (Py.format_float_grouped decimals x) as [fmt|]; [| apply Hdash; set_solver].
    by apply replace_absent.
Qed.

Lemma digits_decimal k :
  Forall (fun c => c ∈ chars "0123456789") (chars (Py.digits k)).
Proof.
  unfold Py.digits. generalize (N.to_uint (Z.to_N k)). intros d.
  assert (H : Forall (fun c => c ∈ chars "0123456789") (chars (NilEmpty.string_of_uint d))).
  { induction d; simpl; constructor; try done; apply (bool_decide_unpack _); vm_compute; exact I. }
  destruct d; try exact H. simpl. constructor; [| done].
  apply (bool_decide_unpack _); vm_compute; exact I.
Qed.

Lemma decimal_not_separator c :
  c ∈ chars "0123456789" → c ≠ ","%char ∧ c ≠ " "%char.
Proof.
  intros Hc. simpl in Hc.
  repeat (apply elem_of_cons in Hc as [-> | Hc]; [done |]).
  by apply elem_of_nil in Hc.
Qed.

Lemma strip_group3 s :
  Forall (fun c => c ∈ chars "0123456789") (chars s) →
  filter (fun c => c ≠ " "%char) (chars (Py.replace "," " " (Py.group3 s))) = chars s.
Proof.
  induction s as [|c s IH]; [done |]. intros [Hc Hs]%Forall_cons.
  apply decimal_not_separator in Hc as [Hc1 Hc2].
  assert (Hf : (if Ascii.eqb c "," then " "%char else c) = c).
  { by destruct (Ascii.eqb_spec c ","%char). }
  cbn [Py.group3]. destruct (_ && _); cbn [Py.replace chars]; rewrite Hf.
  - rewrite filter_cons_True by done. change (Ascii.eqb "," ",") with true. cbn iota.
    rewrite filter_cons_False by (intros H; by apply H). by rewrite IH.
  - rewrite filter_cons_True by done. by rewrite IH.
Qed.

Lemma decimal_of_Z k :
  NilZero.string_of_int (Z.to_int k)
  = (if k <? 0 then "-" else "") +:+ Py.digits (Z.abs k).
Proof.
  destruct k as [|p|p]; [done | ..]; unfold Py.digits; simpl.
  - destruct (Pos.to_uint p) eqn:E; reflexivity.
  - reflexivity.
Qed.

(** X24. Taking the spaces out of what [_fr_int] writes for a number gives the
    decimal writing of that number rounded to an integer: the digits are
    all there, in order, and nothing but spaces is added. *)
Theorem fr_int_digits n x k :
  Py.isna n = false → Py.to_float n = Some x → Py.round x = Some k →
  filter (fun c => c ≠ " "%char) (chars (_fr_int n))
  = chars (NilZero.string_of_int (Z.to_int k)).
Proof.
  intros Hna Hx Hk. unfold _fr_int. rewrite Hna, Hx, Hk, decimal_of_Z.
  unfold Py.format_int_grouped.
  pose proof (strip_group3 _ (digits_decimal (Z.abs k))) as Hs.
  destruct (k <? 0).
  - change ("-" +:+ ?t) with (String "-" t). cbn [Py.replace chars].
    change (Ascii.eqb "-" ",") with false. cbn iota.
    rewrite filter_cons_True by done. by rewrite Hs.
  - exact Hs.
Qed.

Lemma group_arithmetic (m : nat) :
  let L := (m + (m - 1) / 3)%nat in
  if ((0 <? m) && (m mod 3 =? 0))%nat
  then (L mod 4 = 3 ∧ m + 1 + m / 3 = L + 2)%nat
  else (L mod 4 ≠ 3 ∧ m + 1 + m / 3 = L + 1)%nat.
Proof.
  intros L. subst L.
  pose proof (Nat.div_mod_eq m 3) as Hm.
  pose proof (Nat.mod_upper_bound m 3 ltac:(lia)) as Hr.
  pose proof (Nat.div_mod_eq (m - 1) 3) as Hm1.
  pose proof (Nat.mod_upper_bound (m - 1) 3 ltac:(lia)) as Hr1.
  pose proof (Nat.div_mod_eq (m + (m - 1) / 3) 4) as HL.
  pose proof (Nat.mod_upper_bound (m + (m - 1) / 3) 4 ltac:(lia)) as HL1.
  destruct (Nat.ltb_spec 0 m), (Nat.eqb_spec (m mod 3) 0); cbn [andb]; lia.
Qed.

Lemma spaced_positions s :
  Forall (fun c => c ∈ chars "0123456789") (chars s) →
  let t := chars (Py.replace "," " " (Py.group3 s)) in
  let m := String.length s in
  length t = (m + (m - 1) / 3)%nat
  ∧ ∀ (i : nat) c, reverse t !! i = Some c → (c = " "%char ↔ (i mod 4 = 3)%nat).
Proof.
  induction s as [|c s IH]; [done |]. intros [Hc Hs]%Forall_cons.
  apply decimal_not_separator in Hc as [Hc1 Hc2].
  assert (Hf : (if Ascii.eqb c "," then " "%char else c) = c).
  { by destruct (Ascii.eqb_spec c ","%char). }
  destruct (IH Hs) as [IHlen IHpos]. clear IH.
  pose proof (group_arithmetic (String.length s)) as Har.
  cbn [Py.group3 String.length].
  replace (S (String.length s) - 1)%nat with (String.length s) by lia.
  destruct (_ && _); cbn [Py.replace chars]; rewrite Hf;
    destruct Har as [Hmod Hlen]; cbn zeta.
  - change (Ascii.eqb "," ",") with true. cbn iota. split.
    + cbn [length]. rewrite IHlen. lia.
    + intros i d. rewrite !reverse_cons, <- app_assoc. intros Hi.
      apply lookup_app_Some in Hi as [Hi | [Hge Hi]]; [by apply IHpos |].
      rewrite length_reverse, IHlen in Hge, Hi.
      destruct (i - _)%nat as [|[|j]] eqn:Ej; simpl in Hi; [| | done].
      * injection Hi as <-. split; [intros _ | done].
        replace i with (String.length s + (String.length s - 1) / 3)%nat by lia.
        exact Hmod.
      * injection Hi as <-. split; [done |]. intros Hi4. exfalso.
        assert (i = S (String.length s + (String.length s - 1) / 3))%nat as -> by lia.
        revert Hmod Hi4. generalize (String.length s + (String.length s - 1) / 3)%nat.
        intros L.
        pose proof (Nat.div_mod_eq L 4). pose proof (Nat.div_mod_eq (S L) 4).
        pose proof (Nat.mod_upper_bound L 4 ltac:(lia)).
        pose proof (Nat.mod_upper_bound (S L) 4 ltac:(lia)). lia.
  - split.
    + cbn [length]. rewrite IHlen. lia.
    + intros i d. rewrite reverse_cons. intros Hi.
      apply lookup_app_Some in Hi as [Hi | [Hge Hi]]; [by apply IHpos |].
      rewrite length_reverse, IHlen in Hge, Hi.
      destruct (i - _)%nat as [|j] eqn:Ej; simpl in Hi; [| done].
      injection Hi as <-. split; [done |]. intros Hi4. exfalso. apply Hmod.
      replace (String.length s + (String.length s - 1) / 3)%nat with i by lia.
      exact Hi4.
Qed.

(** X25. [_fr_int] separates the thousands: counting from the right of what it
    writes for a number that rounds to a non-negative integer, every
    fourth character is a space, and no other is. *)
Theorem fr_int_thousands n x k (i : nat) c :
  Py.isna n = false → Py.to_float n = Some x → Py.round x = Some k → 0 ≤ k →
  reverse (chars (_fr_int n)) !! i = Some c →
  c = " "%char ↔ (i mod 4 = 3)%nat.
Proof.
  intros Hna Hx Hk Hpos. unfold _fr_int. rewrite Hna, Hx, Hk.
  unfold Py.format_int_grouped.
  destruct (Z.ltb_spec k 0) as [? | _]; [lia |].
  apply (spaced_positions _ (digits_decimal (Z.abs k))).
Qed.

End FormatterFurther.

Lemma fr_int_digits_witness :
  filter (fun c => c ≠ " "%char) (list_ascii_of_string (_fr_int (Py.SFloat (-1234567.5)%float)))
  = list_ascii_of_string "-1234568".
Proof.
  apply (fr_int_digits (Py.SFloat (-1234567.5)%float) (-1234567.5)%float (-1234568));
    vm_compute; reflexivity.
Defined.

Lemma fr_int_thousands_witness :
  reverse (list_ascii_of_string (_fr_int (Py.SInt 1234567))) !! 3%nat = Some " "%char
  ∧ (" "%char = " "%char ↔ (3 mod 4 = 3)%nat).
Proof.
  assert (H : reverse (list_ascii_of_string (_fr_int (Py.SInt 1234567))) !! 3%nat
              = Some " "%char) by (vm_compute; reflexivity).
  split; [exact H |].
  apply (fr_int_thousands (Py.SInt 1234567) 1234567%float 1234567 3 " " );
    [vm_compute; reflexivity | vm_compute; reflexivity | vm_compute; reflexivity
    | lia | exact H].
Defined.

(** ** The lists offered by the slicers *)

Section Distinct.

Context {A : Type} `{EqDecision A} (inj : A → cell).
Context (inj_eqb : ∀ a b, Pandas.cell_eqb (inj a) (inj b) = bool_decide (a = b)).
Context (inj_notna : ∀ a, Pandas.notna (inj a) = true).

Implicit Types (l acc : list A) (col : Series).

Lemma inj_injective a b : inj a = inj b → a = b.
Proof.
  intros Hab. pose proof (inj_eqb a b) as H. rewrite <- Hab, inj_eqb in H.
  rewrite bool_decide_eq_true_2 in H by done. symmetry in H.
  by apply bool_decide_eq_true in H.
Qed.

Lemma existsb_inj a acc :
  existsb (Pandas.cell_eqb (inj a)) (inj <$> acc) = bool_decide (a ∈ acc).
Proof.
  induction acc as [|b acc IH]; [done |].
  cbn [fmap list_fmap existsb].
  - rewrite inj_eqb, IH. rewrite <- bool_decide_or. apply bool_decide_ext.
    by rewrite elem_of_cons.
Qed.

Lemma unique_fold l acc :
  NoDup acc →
  ∃ acc', foldl (fun seen c => if existsb (Pandas.cell_eqb c) seen then seen
                               else (seen ++ [c])%list)
                (inj <$> acc) (inj <$> l) = inj <$> acc'
          ∧ NoDup acc' ∧ ∀ a, a ∈ acc' ↔ a ∈ acc ∨ a ∈ l.
Proof.
  revert acc. induction l as [|a l IH]; intros acc Hnd; cbn [fmap list_fmap foldl].
  - exists acc. split; [done | split; [done |]]. intros a. rewrite elem_of_nil. tauto.
  - rewrite existsb_inj. case_bool_decide as Ha.
    + destruct (IH acc Hnd) as (acc' & -> & Hnd' & Hin). exists acc'.
      split; [done | split; [done |]]. intros b. rewrite Hin, elem_of_cons.
      split; [tauto |]. intros [? | [-> | ?]]; tauto.
    + change [inj a] with (inj <$> [a]). rewrite <- fmap_app.
      destruct (IH (acc ++ [a])%list) as (acc' & -> & Hnd' & Hin).
      { apply NoDup_app. split; [done |]. split; [| apply NoDup_singleton].
        intros b Hb ->%list_elem_of_singleton. done. }
      exists acc'. split; [done | split; [done |]]. intros b.
      rewrite Hin, elem_of_app, list_elem_of_singleton, elem_of_cons. tauto.
Qed.

Lemma unique_inj l :
  ∃ l', Pandas.unique (inj <$> l) = inj <$> l' ∧ NoDup l' ∧ ∀ a, a ∈ l' ↔ a ∈ l.
Proof.
  destruct (unique_fold l [] (NoDup_nil_2)) as (l' & H & Hnd & Hin).
  exists l'. split; [exact H | split; [done |]]. intros a. rewrite Hin, elem_of_nil. tauto.
Qed.

Lemma dropna_inj col :
  Forall (fun c => Pandas.isna c = true ∨ ∃ a, c = inj a) col →
  ∃ l, Pandas.dropna col = inj <$> l ∧ ∀ a, a ∈ l ↔ inj a ∈ col.
Proof.
  unfold Pandas.dropna.
  induction 1 as [|c col Hc _ (l & IH & Hin)].
  - exists []. split; [done |]. intros a. by rewrite !elem_of_nil.
  - destruct Hc as [Hc | [b ->]].
    + exists l. rewrite filter_cons_False.
      2: { unfold Pandas.notna. by rewrite Hc. }
      split; [done |]. intros a. rewrite Hin, elem_of_cons.
      split; [tauto |]. intros [<- | ?]; [| done].
      pose proof (inj_notna a) as Hn. unfold Pandas.notna in Hn. by rewrite Hc in Hn.
    + exists (b :: l). rewrite filter_cons_True by apply inj_notna.
      rewrite IH. split; [done |]. intros a. rewrite !elem_of_cons, Hin.
      split; [intros [-> | ?]; tauto |]. intros [?%inj_injective | ?]; tauto.
Qed.

Lemma distinct_inj col :
  Forall (fun c => Pandas.isna c = true ∨ ∃ a, c = inj a) col →
  ∃ l, Pandas.unique (Pandas.dropna col) = inj <$> l
       ∧ NoDup l ∧ ∀ a, a ∈ l ↔ inj a ∈ col.
Proof.
  intros (l0 & -> & Hin0)%dropna_inj. destruct (unique_inj l0) as (l & -> & Hnd & Hin).
  exists l. split; [done | split; [done |]]. intros a. by rewrite Hin.
Qed.

Lemma strict_sorted (R S : relation A) l :
  (∀ x y, R x y → x ≠ y → S x y) →
  StronglySorted R l → NoDup l → StronglySorted S l.
Proof.
  intros HRS. induction 1 as [|x l _ IH Hx]; intros Hnd; constructor.
  - apply IH. by apply NoDup_cons in Hnd as [_ ?].
  - apply NoDup_cons in Hnd as [Hfresh _].
    rewrite Forall_forall in Hx |- *. intros y Hy. apply HRS; [by apply Hx |].
    by intros ->.
Qed.

End Distinct.

Lemma int_eqb a b : Pandas.cell_eqb (Int a) (Int b) = bool_decide (a = b).
Proof.
  change (Pandas.cell_eqb (Int a) (Int b)) with (a =? b).
  destruct (Z.eqb_spec a b); by case_bool_decide.
Qed.

Lemma str_eqb (a b : string) : Pandas.cell_eqb (Str a) (Str b) = bool_decide (a = b).
Proof.
  change (Pandas.cell_eqb (Str a) (Str b)) with (String.eqb a b).
  destruct (String.eqb_spec a b); by case_bool_decide.
Qed.

Lemma sorted_ints label (zs : list Z) :
  sorted label (Int <$> zs) = inr (Int <$> merge_sort Z.le zs).
Proof.
  unfold sorted.
  assert (forallb (fun c => match c with Int _ => true | _ => false end) (Int <$> zs) = true)
    as -> by (by induction zs).
  assert (Pandas.int_values (Int <$> zs) = zs) as ->; [| done].
  unfold Pandas.int_values. induction zs as [|z zs IH]; [done |].
  cbn. by rewrite IH.
Qed.

Lemma sorted_strs label (l : list string) :
  sorted label (Str <$> l)
  = inr (Str <$> merge_sort (fun a b : string => String.leb a b) l).
Proof.
  unfold sorted. destruct l as [|a l]; [done |].
  cbn [fmap list_fmap forallb andb].
  assert (forallb (fun c => match c with Str _ => true | _ => false end) (Str <$> l) = true)
    as -> by (by induction l).
  assert (omap (fun c => match c with Str a => Some a | _ => None end) (Str <$> l) = l)
    as Hl.
  { induction l as [|b l IH]; [done |]. cbn. by rewrite IH. }
  cbn [omap list_omap]. by rewrite Hl.
Qed.

Lemma ascii_compare_trans a b c o :
  Ascii.compare a b = o → Ascii.compare b c = o → Ascii.compare a c = o.
Proof.
  unfold Ascii.compare. destruct o.
  - rewrite !N.compare_eq_iff. congruence.
  - rewrite !N.compare_lt_iff. lia.
  - rewrite !N.compare_gt_iff. lia.
Qed.

Lemma string_leb_trans (s1 s2 s3 : string) :
  String.leb s1 s2 = true → String.leb s2 s3 = true → String.leb s1 s3 = true.
Proof.
  unfold String.leb. revert s2 s3.
  induction s1 as [|c1 s1 IH]; intros [|c2 s2] [|c3 s3]; simpl; try done.
  destruct (Ascii.compare c1 c2) eqn:E12; [| | done];
    destruct (Ascii.compare c2 c3) eqn:E23; try done.
  - rewrite (ascii_compare_trans _ _ _ _ E12 E23). apply IH.
  - apply Ascii.compare_eq_iff in E12 as ->. by rewrite E23.
  - apply Ascii.compare_eq_iff in E23 as <-. by rewrite E12.
  - by rewrite (ascii_compare_trans _ _ _ _ E12 E23).
Qed.

Lemma string_leb_strict (a b : string) :
  String.leb a b → a ≠ b → String.ltb a b.
Proof.
  unfold String.leb, String.ltb. intros H Hne.
  destruct (String.compare a b) eqn:E; try done.
  by apply String.compare_eq_iff in E.
Qed.

(** X11. The year slicer offers the years found in the column, each once, in
    ascending order; a missing year is not offered. *)
Theorem years_offered df col :
  Pandas.get df "Année" = inr col →
  Forall (fun c => Pandas.isna c = true ∨ ∃ y, c = Int y) col →
  ∃ ys, years df = inr (Int <$> ys)
        ∧ StronglySorted Z.lt ys ∧ ∀ y, y ∈ ys ↔ Int y ∈ col.
Proof.
  intros Hget Hcol. unfold years, offered. rewrite Hget. cbn [bind].
  destruct (distinct_inj Int int_eqb (fun _ => eq_refl) col Hcol) as (l & -> & Hnd & Hin).
  rewrite sorted_ints. exists (merge_sort Z.le l). split; [done |]. split.
  - apply (strict_sorted Z.le); [lia | | by rewrite merge_sort_Permutation].
    apply StronglySorted_merge_sort; apply _.
  - intros y. by rewrite merge_sort_Permutation.
Qed.

(** X12. The category and channel slicers offer the names found in the
    column, each once, in the order of their characters. *)
Theorem names_offered label df col :
  Pandas.get df label = inr col →
  Forall (fun c => Pandas.isna c = true ∨ ∃ a, c = Str a) col →
  ∃ names, offered label df = inr (Str <$> names)
           ∧ StronglySorted (fun a b : string => String.ltb a b) names
           ∧ ∀ a, a ∈ names ↔ Str a ∈ col.
Proof.
  intros Hget Hcol. unfold offered. rewrite Hget. cbn [bind].
  destruct (distinct_inj Str str_eqb (fun _ => eq_refl) col Hcol) as (l & -> & Hnd & Hin).
  rewrite sorted_strs. eexists. split; [done |]. split.
  - apply (strict_sorted (fun a b : string => String.leb a b));
      [apply string_leb_strict | | by rewrite merge_sort_Permutation].
    apply StronglySorted_merge_sort.
    + intros a b c Hab Hbc. apply Is_true_true. apply Is_true_true in Hab, Hbc.
      by apply (string_leb_trans a b c).
    + intros a b. destruct (String.leb_total a b) as [H | H];
        [left | right]; by apply Is_true_true.
  - intros a. by rewrite merge_sort_Permutation.
Qed.

Lemma cell_eqb_str v d :
  Pandas.cell_eqb v (Str d) = true ∨ Pandas.cell_eqb (Str d) v = true → v = Str d.
Proof.
  unfold Pandas.cell_eqb. destruct v as [| n | x | a | t]; simpl; try (intros [|]; done).
  - destruct (is_nan x); intros [|]; done.
  - intros [H | H]; apply String.eqb_eq in H; by subst.
Qed.

Lemma existsb_str d (present : list cell) :
  existsb (fun v => Pandas.cell_eqb v (Str d)) present = true ↔ Str d ∈ present.
Proof.
  rewrite existsb_exists. split.
  - intros (v & Hv%list_elem_of_In & Heq).
    by rewrite (cell_eqb_str v d (or_introl Heq)) in Hv.
  - intros H. exists (Str d). split; [by apply list_elem_of_In |].
    rewrite str_eqb. by apply bool_decide_eq_true.
Qed.

Lemma unique_fold_str d (l acc : list cell) :
  Str d ∈ foldl (fun seen c => if existsb (Pandas.cell_eqb c) seen then seen
                               else (seen ++ [c])%list) acc l
  ↔ Str d ∈ acc ∨ Str d ∈ l.
Proof.
  revert acc. induction l as [|c l IH]; intros acc; cbn [foldl].
  - rewrite elem_of_nil. tauto.
  - rewrite IH, elem_of_cons. destruct (existsb _ acc) eqn:E.
    + split; [tauto |]. intros [? | [<- | ?]]; try tauto. left.
      apply existsb_exists in E as (v & Hv%list_elem_of_In & Heq).
      by rewrite (cell_eqb_str v d (or_intror Heq)) in Hv.
    + rewrite elem_of_app, list_elem_of_singleton.
      split; [intros [[? | ->] | ?] | intros [? | [-> | ?]]]; tauto.
Qed.

(** X13. The weekday slicer offers those of the seven names that the column
    holds, Monday first, whatever the order of the rows; a value that
    is not one of the seven names is not offered. *)
Theorem avail_weekdays_offered df col :
  Pandas.get df "Jour de la semaine" = inr col →
  ∃ ds, avail_weekdays df = inr ds
        ∧ sublist ds weekdays ∧ ∀ d, d ∈ ds ↔ d ∈ weekdays ∧ Str d ∈ col.
Proof.
  intros Hget. unfold avail_weekdays. rewrite Hget. cbn [bind].
  eexists. split; [done |]. split; [apply sublist_filter |].
  intros d. rewrite list_elem_of_filter, existsb_str.
  unfold Pandas.unique. rewrite unique_fold_str, elem_of_nil.
  unfold Pandas.dropna. rewrite list_elem_of_filter. simpl. tauto.
Qed.

Lemma get_present df label col c :
  Pandas.get df label = inr col → c ∈ col →
  Pandas.has_column df label = true ∧ Pandas.getitem df label = inr col.
Proof.
  unfold Pandas.get. destruct (Pandas.has_column df label); [done |].
  intros [= <-] H. by apply elem_of_nil in H.
Qed.

Lemma slicer_inactive label df : slicer label [] df = inr df.
Proof. done. Qed.

Lemma slicer_active label v sel df s :
  Pandas.has_column df label = true → Pandas.getitem df label = inr s →
  slicer label (v :: sel) df = inr (Pandas.loc df (Pandas.isin s (v :: sel))).
Proof. intros Hhas Hitem. unfold slicer. by rewrite Hhas, Hitem. Qed.

Lemma isin_year col y :
  Forall (fun c => Pandas.isna c = true ∨ ∃ z, c = Int z) col →
  Pandas.isin col [Int y]
  = (fun c => match c with Int z => z =? y | _ => false end) <$> col.
Proof.
  unfold Pandas.isin. intros Hcol. rewrite map_fmap. apply Forall_fmap_ext_1.
  eapply Forall_impl; [exact Hcol |]. intros c [Hc | [z ->]]; cbn [existsb].
  - rewrite orb_false_r. unfold Pandas.cell_eqb. rewrite Hc.
    by destruct c.
  - by rewrite orb_false_r.
Qed.

(** X14. Before the user touches the slicers the year is preset to the most
    recent one in the data and nothing else is selected: the filter block
    then keeps the rows of that year, and every row when no row has a
    year. *)
Theorem first_view_latest_year df col :
  Pandas.get df "Année" = inr col →
  Forall (fun c => Pandas.isna c = true ∨ ∃ y, c = Int y) col →
  ∃ ys, years df = inr ys
        ∧ (((∀ y, Int y ∉ col)
            ∧ default_selections ys = no_selection
            ∧ filter_block df (default_selections ys) = inr df)
           ∨ (∃ y, Int y ∈ col ∧ (∀ z, Int z ∈ col → z ≤ y)
                   ∧ default_selections ys = only_year y
                   ∧ filter_block df (default_selections ys)
                     = inr (Pandas.loc df
                              ((fun c => match c with Int z => z =? y | _ => false end)
                                 <$> col)))).
Proof.
  intros Hget Hcol. unfold years, offered. rewrite Hget. cbn [bind].
  destruct (distinct_inj Int int_eqb (fun _ => eq_refl) col Hcol) as (l & -> & Hnd & Hin).
  rewrite sorted_ints. eexists. split; [done |].
  set (ys := merge_sort Z.le l).
  assert (Hsort : StronglySorted Z.le ys) by (apply StronglySorted_merge_sort; apply _).
  assert (Hys : ∀ y, y ∈ ys ↔ Int y ∈ col).
  { intros y. unfold ys. by rewrite merge_sort_Permutation. }
  unfold default_selections, year_default. rewrite fmap_last.
  destruct (last ys) as [y|] eqn:Hlast; cbn [fmap option_fmap option_map].
  - right. exists y. apply last_Some in Hlast as [ys' Hys'].
    split; [apply Hys; rewrite Hys'; set_solver |]. split.
    { intros z Hz%Hys. rewrite Hys' in Hz, Hsort.
      apply elem_of_app in Hz as [Hz | ->%list_elem_of_singleton]; [| lia].
      apply (StronglySorted_app_1_elem_of _ _ _ z y Hsort); set_solver. }
    split; [done |].
    assert (Hy : Int y ∈ col) by (apply Hys; rewrite Hys'; set_solver).
    destruct (get_present df "Année" col (Int y) Hget Hy) as [Hhas Hitem].
    unfold filter_block. cbn [year_sel cat_sel ch_sel day_sel hour_sel].
    rewrite (slicer_active _ _ _ _ col Hhas Hitem). cbn [bind].
    rewrite !slicer_inactive. cbn [bind]. by rewrite (isin_year col y Hcol).
  - left. apply last_None in Hlast. split.
    { intros y Hy%Hys. rewrite Hlast in Hy. by apply elem_of_nil in Hy. }
    rewrite Hlast. done.
Qed.

Lemma years_offered_witness :
  ∃ ys, years dated = inr (Int <$> ys)
        ∧ StronglySorted Z.lt ys
        ∧ ∀ y, y ∈ ys ↔ Int y ∈ [Int 2024; Null; Int 2023; Int 2024].
Proof.
  apply (years_offered dated [Int 2024; Null; Int 2023; Int 2024]);
    [vm_compute; reflexivity |].
  repeat (apply Forall_cons_2; [first [by left | right; by eexists] |]).
  apply Forall_nil_2.
Defined.

Lemma names_offered_witness :
  ∃ names, offered "channel" dated = inr (Str <$> names)
           ∧ StronglySorted (fun a b : string => String.ltb a b) names
           ∧ ∀ a, a ∈ names ↔ Str a ∈ [Str "b"; Str "a"; Null; Str "b"].
Proof.
  apply (names_offered "channel" dated [Str "b"; Str "a"; Null; Str "b"]);
    [vm_compute; reflexivity |].
  repeat (apply Forall_cons_2; [first [by left | right; by eexists] |]).
  apply Forall_nil_2.
Defined.

Lemma avail_weekdays_offered_witness :
  ∃ ds, avail_weekdays dated = inr ds
        ∧ sublist ds weekdays
        ∧ ∀ d, d ∈ ds ↔ d ∈ weekdays ∧ Str d ∈ [Str "Mardi"; Null; Str "Lundi"; Str "Mardi"].
Proof.
  apply (avail_weekdays_offered dated [Str "Mardi"; Null; Str "Lundi"; Str "Mardi"]).
  vm_compute; reflexivity.
Defined.

Lemma first_view_latest_year_witness :
  ∃ ys, years dated = inr ys
        ∧ (((∀ y, Int y ∉ [Int 2024; Null; Int 2023; Int 2024])
            ∧ default_selections ys = no_selection
            ∧ filter_block dated (default_selections ys) = inr dated)
           ∨ (∃ y, Int y ∈ [Int 2024; Null; Int 2023; Int 2024]
                   ∧ (∀ z, Int z ∈ [Int 2024; Null; Int 2023; Int 2024] → z ≤ y)
                   ∧ default_selections ys = only_year y
                   ∧ filter_block dated (default_selections ys)
                     = inr (Pandas.loc dated
                              ((fun c => match c with Int z => z =? y | _ => false end)
                                 <$> [Int 2024; Null; Int 2023; Int 2024])))).
Proof.
  apply (first_view_latest_year dated [Int 2024; Null; Int 2023; Int 2024]);
    [vm_compute; reflexivity |].
  repeat (apply Forall_cons_2; [first [by left | right; by eexists] |]).
  apply Forall_nil_2.
Defined.
